(** * Authenticated Express boilerplate: registration, login, access gate, users

    A shallow embedding of the JavaScript sources

      - models/user.js                 (schema, toJSON transform, virtuals,
                                        passwordHash validator, validatePassword)
      - controllers/authentications.js (register, login)
      - controllers/users.js           (usersIndex .. usersDelete)
      - config/routes.js               (secureRoute and the route table)
      - config/tokens.js               (the signing secret)

    (the model and the authentication controller from their files, the users
    controller, the routes and the secret as the walkthrough lists them).

    The handlers are written in explicit state-passing style: the Express
    response object is a recorder of the calls made on it, the Mongoose
    collection is a list of documents threaded through every operation, and
    the node-style callback arguments [(err, result)] are a pair of options.
    The two cryptographic libraries (bcrypt, jsonwebtoken) are interfaces with
    the laws the handlers rely on. *)

From Stdlib Require Import ZArith List Bool Lia.
From Stdlib Require Import Strings.String Strings.Ascii.
Import ListNotations.

Local Open Scope list_scope.
Local Open Scope string_scope.
Local Open Scope Z_scope.

Set Warnings "-register-all".

(** Method chaining on the response object: [r |> f |> g] is [r.f().g()]. *)
Notation "r |> f" := (f r) (at level 45, left associativity, only parsing).

(* ------------------------------------------------------------------ *)
(** ** Strings, as JavaScript uses them here *)

(** [s.slice(n)] *)
Fixpoint drop (n : nat) (s : string) : string :=
  match n, s with
  | O, _ => s
  | S _, EmptyString => EmptyString
  | S n', String _ s' => drop n' s'
  end.

(** [s.startsWith(p)] *)
Fixpoint startsWith (p s : string) : bool :=
  match p, s with
  | EmptyString, _ => true
  | String _ _, EmptyString => false
  | String a p', String b s' => Ascii.eqb a b && startsWith p' s'
  end.

(** [s.replace(pat, rep)] with a string pattern: the scan goes left to right
    and only the first match is replaced. *)
Fixpoint replace (pat rep s : string) : string :=
  if startsWith pat s then rep ++ drop (String.length pat) s
  else match s with
       | EmptyString => EmptyString
       | String c s' => String c (replace pat rep s')
       end.

(** Does [pat] occur in [s] at offset [k]? *)
Definition occursAt (pat s : string) (k : nat) : bool := startsWith pat (drop k s).

(** Does the character [c] occur in [s]? *)
Fixpoint hasChar (c : ascii) (s : string) : bool :=
  match s with
  | EmptyString => false
  | String a s' => Ascii.eqb a c || hasChar c s'
  end.

(** Truthiness of a value that is either [undefined] or a string:
    [undefined] and the empty string are falsy. *)
Definition truthy (v : option string) : bool :=
  match v with
  | Some s => negb (s =? "")%string
  | None => false
  end.

(** [a === b] on values that are either [undefined] or a string. *)
Definition strictEq (a b : option string) : bool :=
  match a, b with
  | Some x, Some y => (x =? y)%string
  | None, None => true
  | _, _ => false
  end.

(* ------------------------------------------------------------------ *)
(** ** JSON values and the response recorder *)

Inductive json : Type :=
| JNull
| JNum (n : Z)
| JStr (s : string)
| JArr (items : list json)
| JObj (members : list (string * json)).

(** [delete o[k]] *)
Definition delete (k : string) (o : json) : json :=
  match o with
  | JObj ms => JObj (filter (fun m => negb (fst m =? k)%string) ms)
  | _ => o
  end.

(** Is [k] the name of a member anywhere inside [j]? *)
Fixpoint exposes (k : string) (j : json) : bool :=
  match j with
  | JArr items =>
      (fix any (l : list json) : bool :=
         match l with
         | [] => false
         | x :: l' => exposes k x || any l'
         end) items
  | JObj ms =>
      (fix any (l : list (string * json)) : bool :=
         match l with
         | [] => false
         | (k', v) :: l' => (k' =? k)%string || exposes k v || any l'
         end) ms
  | _ => false
  end.

(** What a send puts on the wire. *)
Inductive resbody : Type :=
| BJson (j : json)          (* res.json(j) *)
| BEmpty                    (* res.send() *)
| BReason (code : Z).       (* res.send(code): the reason phrase of [code] *)

(** The calls a handler makes on [res] are recorded in order.  A handler that
    lets an exception escape records [Raised]. *)
Inductive event : Type :=
| Sent (code : Z) (b : resbody)
| Raised (msg : string).

Record response : Type := { statusCode : Z; log : list event }.

Module Res.
Definition fresh : response := {| statusCode := 200; log := [] |}.

(** [res.headersSent]: a send has ended the response. *)
Definition headersSent (r : response) : bool :=
  existsb (fun e => match e with Sent _ _ => true | Raised _ => false end) (log r).

(** An exception has escaped. *)
Definition raised (r : response) : bool :=
  existsb (fun e => match e with Sent _ _ => false | Raised _ => true end) (log r).

(** An exception escapes the handler. *)
Definition raise (msg : string) (r : response) : response :=
  {| statusCode := statusCode r; log := log r ++ [Raised msg] |}.

(** [res.status(n)] *)
Definition status (n : Z) (r : response) : response :=
  {| statusCode := n; log := log r |}.

(** [res.json(j)]; on a response that was already sent, setting the
    headers throws. *)
Definition json (j : json) (r : response) : response :=
  if headersSent r then raise "Can't set headers after they are sent." r
  else {| statusCode := statusCode r;
          log := log r ++ [Sent (statusCode r) (BJson j)] |}.

(** [res.send()] *)
Definition send (r : response) : response :=
  if headersSent r then raise "Can't set headers after they are sent." r
  else {| statusCode := statusCode r;
          log := log r ++ [Sent (statusCode r) BEmpty] |}.

(** [res.send(n)] with a number: the status is set to [n] and the reason
    phrase is sent; the call returns [res] like every other. *)
Definition sendCode (n : Z) (r : response) : response :=
  if headersSent r then raise "Can't set headers after they are sent." r
  else {| statusCode := n; log := log r ++ [Sent n (BReason n)] |}.
End Res.

(** The sends among the recorded events. *)
Definition sends (r : response) : list (Z * resbody) :=
  flat_map (fun e => match e with Sent c b => [(c, b)] | Raised _ => [] end) (log r).

(* ------------------------------------------------------------------ *)
(** ** The libraries *)

(** bcrypt: [hashSync(data, salt)] and [compareSync(data, hash)] on strings.
    A bcrypt hash is a 60 character string, so never empty. *)
Class Bcrypt : Type := {
  hashSync : string -> string -> string;
  compareSync : string -> string -> bool;
  hashSync_nonempty : forall data salt, hashSync data salt <> "";
  compareSync_hashSync : forall data salt, compareSync data (hashSync data salt) = true
}.

(** What [register] and [login] sign. *)
Record payload : Type := { payload_id : string; payload_username : string }.

(** What [jwt.verify] hands back: the signed payload with the issue and
    expiry times (seconds) that [jwt.sign] added. *)
Record decoded : Type := { claims : payload; iat : Z; exp : Z }.

Inductive jwtError : Type :=
| JsonWebTokenError (msg : string)
| TokenExpiredError.

(** jsonwebtoken: [jwt.sign(payload, secret, {expiresIn})] run at clock time
    [clock], and [jwt.verify(token, secret)] run at clock time [clock].
    A token verifies under the secret it was signed with until its expiry,
    and is a compact serialization (base64url segments joined by dots), so
    it is not empty and has no space in it. *)
Class JsonWebToken : Type := {
  jwt_sign : payload -> string -> Z -> Z -> string;
  jwt_verify : string -> string -> Z -> jwtError + decoded;
  jwt_verify_sign : forall p secret expiresIn t clock,
      clock < t + expiresIn ->
      jwt_verify (jwt_sign p secret expiresIn t) secret clock
      = inr {| claims := p; iat := t; exp := t + expiresIn |};
  jwt_verify_expired : forall p secret expiresIn t clock,
      t + expiresIn <= clock ->
      jwt_verify (jwt_sign p secret expiresIn t) secret clock = inl TokenExpiredError;
  jwt_sign_compact : forall p secret expiresIn t,
      hasChar " " (jwt_sign p secret expiresIn t) = false;
  jwt_sign_nonempty : forall p secret expiresIn t,
      jwt_sign p secret expiresIn t <> ""
}.

(* ------------------------------------------------------------------ *)
(** ** models/user.js *)

(** A persisted document of the [User] model: the three paths the schema
    declares, with the identifier and version key that Mongoose adds. *)
Record user : Type := {
  _id : string;
  username : string;
  email : string;
  passwordHash : string;
  __v : Z
}.

(** The keys of an input object that the model knows: the three schema paths
    and the two virtuals. *)
Inductive key : Type :=
| K_username | K_email | K_passwordHash | K_password | K_passwordConfirmation.

Definition key_eqb (a b : key) : bool :=
  match a, b with
  | K_username, K_username | K_email, K_email | K_passwordHash, K_passwordHash
  | K_password, K_password | K_passwordConfirmation, K_passwordConfirmation => true
  | _, _ => false
  end.

(** [req.body], for the inputs that are flat records of string values
    under the five keys that the model knows, in the order in which Mongoose
    assigns them.  A key of a JavaScript object occurs once; where a list
    repeats a key the later entry stands, as with repeated assignment.
    Inputs of another shape are not represented: arrays, values that are not
    strings, update operators such as [$set], and the members [_id] and
    [__v].  Every statement about a body below speaks of flat records
    only. *)
Definition reqbody : Type := list (key * string).

(** [body[k]], [undefined] when the key is missing. *)
Fixpoint field (k : key) (b : reqbody) : option string :=
  match b with
  | [] => None
  | (k', v) :: b' =>
      match field k b' with
      | Some w => Some w
      | None => if key_eqb k' k then Some v else None
      end
  end.

(** A document under construction: the schema paths, not yet validated, the
    two transient properties that the virtual setters write, and [isNew]. *)
Record document : Type := {
  doc_username : option string;
  doc_email : option string;
  doc_passwordHash : option string;
  _password : option string;
  _passwordConfirmation : option string;
  isNew : bool
}.

Definition emptyDocument : document :=
  {| doc_username := None; doc_email := None; doc_passwordHash := None;
     _password := None; _passwordConfirmation := None; isNew := true |}.

(** A validation message for a path. *)
Definition invalidation : Type := (string * string)%type.

(** What a store operation reports in the [err] argument of its callback:
    a failed validation, a value that does not cast to an ObjectId, a
    violated unique index (an insert reports the attempted document as
    [op], an update reports none), or a failure of the store itself. *)
Inductive error : Type :=
| ValidationError (errors : list invalidation)
| CastError (value : string)
| DuplicateKeyError (path : string) (op : option user)
| StoreError (msg : string).

(** [doc.toObject()]: every stored path. *)
Definition toObject (u : user) : json :=
  JObj [("_id", JStr (_id u)); ("username", JStr (username u)); ("email", JStr (email u));
        ("passwordHash", JStr (passwordHash u)); ("__v", JNum (__v u))].

Definition json_of_error (e : error) : json :=
  match e with
  | ValidationError errors =>
      JObj [("name", JStr "ValidationError");
            ("errors", JObj (map (fun i => (fst i, JObj [("message", JStr (snd i))])) errors))]
  | CastError value =>
      JObj [("name", JStr "CastError"); ("kind", JStr "ObjectId");
            ("value", JStr value); ("path", JStr "_id")]
  | DuplicateKeyError path op =>
      JObj ([("name", JStr "MongoError"); ("code", JNum 11000); ("errmsg", JStr path)]
            ++ match op with
               | Some u => [("op", toObject u)]
               | None => []
               end)%list
  | StoreError msg =>
      JObj [("name", JStr "MongoError"); ("message", JStr msg)]
  end.

(** The [toJSON] transform of the schema. *)
Definition transform (u : user) (j : json) : json :=
  j |> delete "passwordHash" |> delete "__v".

(** What [JSON.stringify] sees of a document. *)
Definition toJSON (u : user) : json := transform u (toObject u).

(** [res.json(user)] where [user] may be [null]. *)
Definition toJSON_opt (u : option user) : json :=
  match u with
  | Some u => toJSON u
  | None => JNull
  end.

Section Model.
Context {bcrypt : Bcrypt}.

(** Assigning one member of the input to a document.  The setter of the
    [password] virtual keeps the raw password and stores its hash under a
    salt from [bcrypt.genSaltSync(8)]; the setter of [passwordConfirmation]
    keeps the confirmation; a schema path is assigned as it is. *)
Definition assign (salt : string) (d : document) (m : key * string) : document :=
  let (k, v) := m in
  match k with
  | K_username =>
      {| doc_username := Some v; doc_email := doc_email d;
         doc_passwordHash := doc_passwordHash d; _password := _password d;
         _passwordConfirmation := _passwordConfirmation d; isNew := isNew d |}
  | K_email =>
      {| doc_username := doc_username d; doc_email := Some v;
         doc_passwordHash := doc_passwordHash d; _password := _password d;
         _passwordConfirmation := _passwordConfirmation d; isNew := isNew d |}
  | K_passwordHash =>
      {| doc_username := doc_username d; doc_email := doc_email d;
         doc_passwordHash := Some v; _password := _password d;
         _passwordConfirmation := _passwordConfirmation d; isNew := isNew d |}
  | K_password =>
      {| doc_username := doc_username d; doc_email := doc_email d;
         doc_passwordHash := Some (hashSync v salt); _password := Some v;
         _passwordConfirmation := _passwordConfirmation d; isNew := isNew d |}
  | K_passwordConfirmation =>
      {| doc_username := doc_username d; doc_email := doc_email d;
         doc_passwordHash := doc_passwordHash d; _password := _password d;
         _passwordConfirmation := Some v; isNew := isNew d |}
  end.

(** [new User(body)] *)
Definition newUser (salt : string) (b : reqbody) : document :=
  fold_left (assign salt) b emptyDocument.

(** The validator on the path [passwordHash]. *)
Definition passwordHashValidator (d : document) : list invalidation :=
  if isNew d then
    if negb (truthy (_password d)) then
      [("password", "A password is required")]
    else if negb (strictEq (_password d) (_passwordConfirmation d)) then
      [("passwordConfirmation", "Passwords do not match")]
    else []
  else [].

(** [required: true] on a string path: the value must be a non-empty
    string. *)
Definition required (path : string) (v : option string) : list invalidation :=
  if truthy v then [] else [(path, "Path `" ++ path ++ "` is required.")].

(** [doc.validate()]: the declared validators of every path.  The
    validators of a path run in order and stop at the first that fails, so
    the validator on [passwordHash] runs only when [required] has passed. *)
Definition validate (d : document) : list invalidation :=
  (required "username" (doc_username d) ++ required "email" (doc_email d)
   ++ match required "passwordHash" (doc_passwordHash d) with
      | [] => passwordHashValidator d
      | errors => errors
      end)%list.

(** [user.validatePassword(password)]; bcrypt throws when the data is
    missing, which is [None] here. *)
Definition validatePassword (u : user) (password : option string) : option bool :=
  match password with
  | Some p => Some (compareSync p (passwordHash u))
  | None => None
  end.
End Model.

(* ------------------------------------------------------------------ *)
(** ** The collection behind the [User] model *)

(** The documents of the collection, oldest first. *)
Definition collection : Type := list user.

(** A hexadecimal digit, of either case. *)
Definition isHex (c : ascii) : bool :=
  let n := nat_of_ascii c in
  ((48 <=? n) && (n <=? 57) || (65 <=? n) && (n <=? 70) || (97 <=? n) && (n <=? 102))%nat.

(** [c.toLowerCase()] on an ASCII character. *)
Definition toLower (c : ascii) : ascii :=
  let n := nat_of_ascii c in
  if ((65 <=? n) && (n <=? 90))%nat then ascii_of_nat (n + 32) else c.

Fixpoint allHex (s : string) : bool :=
  match s with
  | EmptyString => true
  | String c s' => isHex c && allHex s'
  end.

Fixpoint toLowerCase (s : string) : string :=
  match s with
  | EmptyString => EmptyString
  | String c s' => String (toLower c) (toLowerCase s')
  end.

(** The cast of a route parameter to an ObjectId: a string of 24 hex
    characters is the identifier it spells, which prints in lower case;
    anything else does not cast, and the operation calls back with a
    [CastError]. *)
Definition castObjectId (id : string) : option string :=
  if (String.length id =? 24)%nat && allHex id then Some (toLowerCase id) else None.

(** What the surroundings decide for one request: the clock (seconds), the
    identifier the driver generates for a new document (an ObjectId as it
    prints), the salt that [bcrypt.genSaltSync] draws, and whether the store
    fails on this request (and with what). *)
Record env : Type := {
  now : Z;
  objectId : string;
  objectId_cast : castObjectId objectId = Some objectId;
  genSalt : string;
  fault : option error
}.

(** The arguments [(err, result)] of a node-style callback. *)
Definition callback (A : Type) : Type := (option error * option A)%type.

(** The document that the route parameter [id] names. *)
Definition byId (id : string) (u : user) : bool :=
  match castObjectId id with
  | Some oid => (_id u =? oid)%string
  | None => false
  end.

(** Replace the first document that satisfies [f]. *)
Fixpoint replaceFirst (f : user -> bool) (u' : user) (db : collection) : collection :=
  match db with
  | [] => []
  | u :: db' => if f u then u' :: db' else u :: replaceFirst f u' db'
  end.

(** Remove the first document that satisfies [f]. *)
Fixpoint removeFirst (f : user -> bool) (db : collection) : collection :=
  match db with
  | [] => []
  | u :: db' => if f u then db' else u :: removeFirst f db'
  end.

(** The unique indexes on [username] and [email]: the path whose value is
    already taken by a document other than [self], if any. *)
Definition duplicate (self : option string) (uname mail : option string) (db : collection)
  : option string :=
  let others := filter (fun u => negb (strictEq (Some (_id u)) self)) db in
  if existsb (fun u => strictEq (Some (username u)) uname) others then Some "username"
  else if existsb (fun u => strictEq (Some (email u)) mail) others then Some "email"
  else None.

Section Store.
Context {bcrypt : Bcrypt}.

(** [User.create(body, callback)]: build the document, validate it, insert
    it.  Nothing is inserted unless validation passes, the store answers and
    both unique indexes accept the document. *)
Definition create (b : reqbody) (e : env) (db : collection) : callback user * collection :=
  let d := newUser (genSalt e) b in
  match validate d, doc_username d, doc_email d, doc_passwordHash d with
  | [], Some uname, Some mail, Some hash =>
      match fault e with
      | Some err => ((Some err, None), db)
      | None =>
          let u := {| _id := objectId e; username := uname; email := mail;
                      passwordHash := hash; __v := 0 |} in
          match duplicate None (Some uname) (Some mail) db with
          | Some path => ((Some (DuplicateKeyError path (Some u)), None), db)
          | None => ((None, Some u), (db ++ [u])%list)
          end
      end
  | errors, _, _, _ => ((Some (ValidationError errors), None), db)
  end.

(** [User.find(callback)] *)
Definition find (e : env) (db : collection) : callback (list user) :=
  match fault e with
  | Some err => (Some err, None)
  | None => (None, Some db)
  end.

(** [User.findOne({ email: mail }, callback)] *)
Definition findOne (mail : option string) (e : env) (db : collection) : callback user :=
  match fault e with
  | Some err => (Some err, None)
  | None => (None, List.find (fun u => strictEq (Some (email u)) mail) db)
  end.

(** [User.findById(id, callback)]; the identifier is cast before the store
    is asked. *)
Definition findById (id : string) (e : env) (db : collection) : callback user :=
  match castObjectId id with
  | None => (Some (CastError id), None)
  | Some _ =>
      match fault e with
      | Some err => (Some err, None)
      | None => (None, List.find (byId id) db)
      end
  end.

(** The [$set] that [findByIdAndUpdate] derives from the input: only schema
    paths are kept, the virtuals [password] and [passwordConfirmation] are
    not paths and their setters do not run. *)
Definition applyUpdate (b : reqbody) (u : user) : user :=
  {| _id := _id u;
     username := match field K_username b with Some v => v | None => username u end;
     email := match field K_email b with Some v => v | None => email u end;
     passwordHash := match field K_passwordHash b with Some v => v | None => passwordHash u end;
     __v := __v u |}.

(** The validators that [runValidators: true] runs: those of the paths
    being set.  The [passwordHash] validator runs without a document, so
    its [this.isNew] is not true. *)
Definition validateUpdate (b : reqbody) : list invalidation :=
  let check path k := match field k b with
                      | Some v => required path (Some v)
                      | None => []
                      end in
  (check "username" K_username ++ check "email" K_email
   ++ check "passwordHash" K_passwordHash
   ++ passwordHashValidator
        {| doc_username := None; doc_email := None; doc_passwordHash := None;
           _password := None; _passwordConfirmation := None; isNew := false |})%list.

(** [User.findByIdAndUpdate(id, body, { new: true, runValidators: true },
    callback)]: the identifier is cast, the validators of the paths being
    set run, and then the store is asked; the callback gets the updated
    document, or [null] when no document has this identifier. *)
Definition findByIdAndUpdate (id : string) (b : reqbody) (e : env) (db : collection)
  : callback user * collection :=
  match castObjectId id with
  | None => ((Some (CastError id), None), db)
  | Some oid =>
      match validateUpdate b with
      | [] =>
          match fault e with
          | Some err => ((Some err, None), db)
          | None =>
              match List.find (byId id) db with
              | None => ((None, None), db)
              | Some u =>
                  match duplicate (Some oid) (field K_username b) (field K_email b) db with
                  | Some path => ((Some (DuplicateKeyError path None), None), db)
                  | None =>
                      let u' := applyUpdate b u in
                      ((None, Some u'), replaceFirst (byId id) u' db)
                  end
              end
          end
      | errors => ((Some (ValidationError errors), None), db)
      end
  end.

(** [User.findByIdAndRemove(id, callback)]; the callback of [usersDelete]
    takes [err] only. *)
Definition findByIdAndRemove (id : string) (e : env) (db : collection)
  : option error * collection :=
  match castObjectId id with
  | None => (Some (CastError id), db)
  | Some _ =>
      match fault e with
      | Some err => (Some err, db)
      | None => (None, removeFirst (byId id) db)
      end
  end.
End Store.

(* ------------------------------------------------------------------ *)
(** ** config/tokens.js *)

Definition secret : string := "Shh it's a secret".

(** [60*60*24] *)
Definition expiresIn : Z := 60 * 60 * 24.

Definition message (s : string) : json := JObj [("message", JStr s)].

Definition success (token : string) : json :=
  JObj [("message", JStr "Success"); ("token", JStr token)].

Section Controllers.
Context {bcrypt : Bcrypt} {jwt : JsonWebToken}.

(** The token both [register] and [login] issue for a document. *)
Definition issue (u : user) (e : env) : string :=
  let payload := {| payload_id := _id u; payload_username := username u |} in
  jwt_sign payload secret expiresIn (now e).

(* ---------------------------------------------------------------- *)
(** *** controllers/authentications.js *)

Definition register (body : reqbody) (e : env) (res : response) (db : collection)
  : response * collection :=
  let '((err, user), db') := create body e db in
  match err, user with
  | Some err, _ => (res |> Res.status 400 |> Res.json (json_of_error err), db')
  | None, Some user =>
      let token := issue user e in
      (res |> Res.status 200 |> Res.json (success token), db')
  | None, None => (res |> Res.raise "Cannot read property '_id' of undefined", db')
  end.

(** The [if(err)] line sends and then chains [.json(err)] on the response
    it has just sent, without returning.  The chained call throws, the
    exception leaves the callback, and nothing below the line runs; had it
    not thrown, the test on [user] would run next. *)
Definition login (body : reqbody) (e : env) (res : response) (db : collection) : response :=
  let '(err, user) := findOne (field K_email body) e db in
  let below res :=
    match user with
    | None => res |> Res.status 401 |> Res.json (message "Invalid credentials")
    | Some user =>
        match validatePassword user (field K_password body) with
        | None => res |> Res.raise "data and hash arguments required"
        | Some false => res |> Res.status 401 |> Res.json (message "Invalid credentials")
        | Some true =>
            let token := issue user e in
            res |> Res.status 200 |> Res.json (success token)
        end
    end in
  match err with
  | Some err =>
      let res := res |> Res.sendCode 500 |> Res.json (json_of_error err) in
      if Res.raised res then res else below res
  | None => below res
  end.

(* ---------------------------------------------------------------- *)
(** *** controllers/users.js *)

Definition usersIndex (e : env) (res : response) (db : collection) : response :=
  match find e db with
  | (Some err, _) => res |> Res.status 500 |> Res.json (json_of_error err)
  | (None, Some users) => res |> Res.status 200 |> Res.json (JArr (map toJSON users))
  | (None, None) => res |> Res.status 200 |> Res.json JNull
  end.

Definition usersCreate (body : reqbody) (e : env) (res : response) (db : collection)
  : response * collection :=
  let '((err, user), db') := create body e db in
  match err with
  | Some err => (res |> Res.status 400 |> Res.json (json_of_error err), db')
  | None => (res |> Res.status 201 |> Res.json (toJSON_opt user), db')
  end.

Definition usersShow (id : string) (e : env) (res : response) (db : collection) : response :=
  match findById id e db with
  | (Some err, _) => res |> Res.status 500 |> Res.json (json_of_error err)
  | (None, None) =>
      res |> Res.status 404 |> Res.json (message "Could not find a user with that id")
  | (None, Some user) => res |> Res.status 200 |> Res.json (toJSON user)
  end.

Definition usersUpdate (id : string) (body : reqbody) (e : env) (res : response)
           (db : collection) : response * collection :=
  let '((err, user), db') := findByIdAndUpdate id body e db in
  match err with
  | Some err => (res |> Res.status 400 |> Res.json (json_of_error err), db')
  | None => (res |> Res.status 200 |> Res.json (toJSON_opt user), db')
  end.

Definition usersDelete (id : string) (e : env) (res : response) (db : collection)
  : response * collection :=
  let '(err, db') := findByIdAndRemove id e db in
  match err with
  | Some err => (res |> Res.status 500 |> Res.json (json_of_error err), db')
  | None => (res |> Res.status 204 |> Res.send, db')
  end.
End Controllers.

(* ------------------------------------------------------------------ *)
(** ** config/routes.js *)

Inductive method : Type := GET | HEAD | POST | PUT | PATCH | DELETE | OPTIONS.

(** The path of a request below [/api], as the router matches it. *)
Inductive route : Type :=
| R_users                     (* /users *)
| R_users_id (id : string)    (* /users/:id *)
| R_register                  (* /register *)
| R_login                     (* /login *)
| R_other.                    (* no route *)

Record request : Type := {
  req_method : method;
  req_route : route;
  authorization : option string;    (* req.headers.authorization *)
  req_body : reqbody
}.

(** The resource handlers of controllers/users.js. *)
Inductive handler : Type := H_index | H_create | H_show | H_update | H_delete.

(** Where [secureRoute] leaves a request: answered by the gate, or handed on
    by [next()] with [req.user] set. *)
Inductive gate : Type :=
| Rejected (res : response)
| Next (user : decoded) (res : response).

(** What the router did with a request. *)
Record outcome : Type := {
  out_res : response;
  out_user : option decoded;     (* req.user *)
  out_ran : list handler;        (* the resource handlers that were invoked *)
  out_db : collection
}.

Definition protected (r : route) : bool :=
  match r with
  | R_users | R_users_id _ => true
  | _ => false
  end.

Section Routes.
Context {bcrypt : Bcrypt} {jwt : JsonWebToken}.

(** [jwt.verify(token, secret, callback)]: the [(err, payload)] that the
    callback receives. *)
Definition verify (token : string) (e : env) : option jwtError * option decoded :=
  match jwt_verify token secret (now e) with
  | inl err => (Some err, None)
  | inr payload => (None, Some payload)
  end.

Definition secureRoute (req : request) (e : env) (res : response) : gate :=
  if negb (truthy (authorization req)) then
    Rejected (res |> Res.status 401 |> Res.json (message "Unauthorized"))
  else
    let token := replace "Bearer " ""
                   (match authorization req with Some h => h | None => "" end) in
    match verify token e with
    | (None, Some payload) => Next payload res
    | (_, _) => Rejected (res |> Res.status 401 |> Res.json (message "Unauthorized"))
    end.

(** The handler that a route binds to a method, if any.  A HEAD request
    is served by the GET handler. *)
Definition bound (r : route) (m : method) : option handler :=
  match r, m with
  | R_users, (GET | HEAD) => Some H_index
  | R_users, POST => Some H_create
  | R_users_id _, (GET | HEAD) => Some H_show
  | R_users_id _, (PUT | PATCH) => Some H_update
  | R_users_id _, DELETE => Some H_delete
  | _, _ => None
  end.

Definition run (h : handler) (req : request) (e : env) (res : response) (db : collection)
  : response * collection :=
  match h, req_route req with
  | H_index, _ => (usersIndex e res db, db)
  | H_create, _ => usersCreate (req_body req) e res db
  | H_show, R_users_id id => (usersShow id e res db, db)
  | H_update, R_users_id id => usersUpdate id (req_body req) e res db
  | H_delete, R_users_id id => usersDelete id e res db
  | _, _ => (res, db)
  end.

(** The router: [/users] and [/users/:id] put [secureRoute] before every
    method; [/register] and [/login] are bound to POST without a gate.  A
    request that no handler answers leaves the router with [res] untouched. *)
Definition router (req : request) (e : env) (db : collection) : outcome :=
  let res := Res.fresh in
  match req_route req with
  | R_users | R_users_id _ =>
      match secureRoute req e res with
      | Rejected res' =>
          {| out_res := res'; out_user := None; out_ran := []; out_db := db |}
      | Next user res' =>
          match bound (req_route req) (req_method req) with
          | Some h =>
              let '(res'', db') := run h req e res' db in
              {| out_res := res''; out_user := Some user; out_ran := [h]; out_db := db' |}
          | None =>
              {| out_res := res'; out_user := Some user; out_ran := []; out_db := db |}
          end
      end
  | R_register =>
      match req_method req with
      | POST =>
          let '(res', db') := register (req_body req) e res db in
          {| out_res := res'; out_user := None; out_ran := []; out_db := db' |}
      | _ => {| out_res := res; out_user := None; out_ran := []; out_db := db |}
      end
  | R_login =>
      match req_method req with
      | POST =>
          {| out_res := login (req_body req) e res db; out_user := None;
             out_ran := []; out_db := db |}
      | _ => {| out_res := res; out_user := None; out_ran := []; out_db := db |}
      end
  | R_other => {| out_res := res; out_user := None; out_ran := []; out_db := db |}
  end.
End Routes.

(* ------------------------------------------------------------------ *)
(** ** Reference implementations of the two libraries

    Small executable stand-ins for bcrypt and jsonwebtoken, so that the
    handlers can be run on concrete requests.  They make no claim to be
    secure; that they satisfy the laws of [Bcrypt] and [JsonWebToken] is
    proved in [ToyLaws]. *)

Module Toy.


(** One character per bit of the input, so that the output is made of the
    characters 0 and 1 only. *)
Definition bit (b : bool) : ascii := if b then "1"%char else "0"%char.

Definition isOne (c : ascii) : bool := Ascii.eqb c "1".

Fixpoint enc (s : string) : string :=
  match s with
  | EmptyString => EmptyString
  | String (Ascii b0 b1 b2 b3 b4 b5 b6 b7) s' =>
      String (bit b0) (String (bit b1) (String (bit b2) (String (bit b3)
      (String (bit b4) (String (bit b5) (String (bit b6) (String (bit b7)
      (enc s'))))))))
  end.

Fixpoint dec (s : string) : string :=
  match s with
  | String c0 (String c1 (String c2 (String c3
    (String c4 (String c5 (String c6 (String c7 s'))))))) =>
      String (Ascii (isOne c0) (isOne c1) (isOne c2) (isOne c3)
                    (isOne c4) (isOne c5) (isOne c6) (isOne c7)) (dec s')
  | _ => EmptyString
  end.

Fixpoint encPos (p : positive) : string :=
  match p with
  | xH => EmptyString
  | xO q => String "0" (encPos q)
  | xI q => String "1" (encPos q)
  end.

Fixpoint decPos (s : string) : positive :=
  match s with
  | EmptyString => xH
  | String c s' => if isOne c then xI (decPos s') else xO (decPos s')
  end.

Definition encZ (z : Z) : string :=
  match z with
  | Z0 => "z"
  | Zpos p => String "p" (encPos p)
  | Zneg p => String "n" (encPos p)
  end.

Definition decZ (s : string) : Z :=
  match s with
  | String c s' =>
      if Ascii.eqb c "p" then Zpos (decPos s')
      else if Ascii.eqb c "n" then Zneg (decPos s')
      else 0
  | EmptyString => 0
  end.

(** [s.split(".")] *)
Fixpoint split (s : string) : list string :=
  match s with
  | EmptyString => [EmptyString]
  | String c s' =>
      if Ascii.eqb c "." then EmptyString :: split s'
      else match split s' with
           | [] => [String c EmptyString]
           | seg :: segs => String c seg :: segs
           end
  end.

Definition sign (p : payload) (key : string) (ttl t : Z) : string :=
  enc (payload_id p) ++ "." ++ enc (payload_username p) ++ "."
  ++ encZ t ++ "." ++ encZ (t + ttl) ++ "." ++ enc key.

Definition verify (token key : string) (clock : Z) : jwtError + decoded :=
  match split token with
  | [a; b; c; d; sg] =>
      if (sg =? enc key)%string then
        if clock <? decZ d then
          inr {| claims := {| payload_id := dec a; payload_username := dec b |};
                 iat := decZ c; exp := decZ d |}
        else inl TokenExpiredError
      else inl (JsonWebTokenError "invalid signature")
  | _ => inl (JsonWebTokenError "jwt malformed")
  end.

(** A character other than 0 and 1. *)
Definition outside (c : ascii) : Prop := c <> "0"%char /\ c <> "1"%char.

(** The hash keeps the data behind a marker and ignores the salt. *)
Definition hash (data salt : string) : string := String "$" data.

Definition compare (data h : string) : bool := (h =? String "$" data)%string.
End Toy.

(* ------------------------------------------------------------------ *)
(** ** The vocabulary of the properties *)

(** A later assignment stands; an earlier value survives when the key is
    not assigned. *)
Definition orElse (a b : option string) : option string :=
  match a with
  | Some w => Some w
  | None => b
  end.

(** The two ways a login is refused: the lookup finds no document, or it
    finds one and [validatePassword] says no. *)
Definition notFound `{Bcrypt} (body : reqbody) (e : env) (db : collection) : Prop :=
  findOne (field K_email body) e db = (None, None).

Definition badPassword `{Bcrypt} (body : reqbody) (e : env) (db : collection) : Prop :=
  exists user,
    findOne (field K_email body) e db = (None, Some user)
    /\ validatePassword user (field K_password body) = Some false.

(** The one response that refuses a login. *)
Definition invalidCredentials : list (Z * resbody) :=
  [(401, BJson (JObj [("message", JStr "Invalid credentials")]))].

(** No document of the collection has this handle or this address. *)
Definition unused (uname mail : string) (db : collection) : Prop :=
  forall u, In u db -> username u <> uname /\ email u <> mail.

(** The response carries a success body with this token. *)
Definition issued (token : string) (res : response) : Prop :=
  In (200, BJson (JObj [("message", JStr "Success"); ("token", JStr token)])) (sends res).

(** The single response of the gate when it rejects. *)
Definition unauthorized : response :=
  {| statusCode := 401;
     log := [Sent 401 (BJson (JObj [("message", JStr "Unauthorized")]))] |}.

(** What the router leaves behind when the gate rejects. *)
Definition turnedAway (db : collection) : outcome :=
  {| out_res := unauthorized; out_user := None; out_ran := []; out_db := db |}.

(** The identity reference that a token issued for [u] at [t] decodes to. *)
Definition reference (u : user) (t : Z) : decoded :=
  {| claims := {| payload_id := _id u; payload_username := username u |};
     iat := t; exp := t + 86400 |}.

(** The surroundings [e], with a store that answers. *)
Definition quietly (e : env) : env :=
  {| now := now e; objectId := objectId e; objectId_cast := objectId_cast e;
     genSalt := genSalt e; fault := None |}.

(** Neither the digest nor the version key is a member anywhere in [j]. *)
Definition hidden (j : json) : Prop :=
  exposes "passwordHash" j = false /\ exposes "__v" j = false.

(** Every JSON body sent with a success status keeps the two members out. *)
Definition discreet (res : response) : Prop :=
  forall code j, In (code, BJson j) (sends res) -> code = 200 \/ code = 201 -> hidden j.

(** The digest [h] is the hash of the raw password of [body], which [body]
    confirms. *)
Definition derived `{Bcrypt} (body : reqbody) (e : env) (h : string) : Prop :=
  exists p,
    field K_password body = Some p
    /\ field K_passwordConfirmation body = Some p
    /\ h = hashSync p (genSalt e).

(** An insertion leaves the collection as it was, or appends one document
    whose digest is derived from the raw password of [body]. *)
Definition insertsDerived `{Bcrypt} (body : reqbody) (e : env) (db db' : collection) : Prop :=
  db' = db \/ exists u, db' = (db ++ [u])%list /\ derived body e (passwordHash u).

(* ------------------------------------------------------------------ *)
(** ** Concrete requests and collections *)

(** A collection with one registered Identity, and the surroundings of a
    request, for running the handlers. *)
Definition chansec : user :=
  {| _id := "57e1a1b2c3d4e5f607182931"; username := "chansec"; email := "chanse@chanse.com";
     passwordHash := Toy.hash "password" "salt"; __v := 0 |}.

Definition quiet (clock : Z) : env :=
  {| now := clock; objectId := "57e2a1b2c3d4e5f607182932"; objectId_cast := eq_refl;
     genSalt := "salt"; fault := None |}.

(** GET /users without a header, with an issued token behind the prefix,
    and with the issued token alone. *)
Definition noHeader : request :=
  {| req_method := GET; req_route := R_users; authorization := None; req_body := [] |}.

Definition listing : request :=
  {| req_method := GET; req_route := R_users;
     authorization := Some ("Bearer " ++ Toy.sign {| payload_id := "57e1a1b2c3d4e5f607182931";
                                                     payload_username := "chansec" |}
                                                  secret expiresIn 1000);
     req_body := [] |}.

Definition bare : request :=
  {| req_method := GET; req_route := R_users;
     authorization := Some (Toy.sign {| payload_id := "57e1a1b2c3d4e5f607182931"; payload_username := "chansec" |}
                                     secret expiresIn 1000);
     req_body := [] |}.

Definition failing (clock : Z) : env :=
  {| now := clock; objectId := "57e2a1b2c3d4e5f607182932"; objectId_cast := eq_refl;
     genSalt := "salt"; fault := Some (StoreError "store unavailable") |}.

(** The candidate of the walkthrough. *)
Definition candidate : reqbody :=
  [(K_username, "chansec"); (K_email, "chanse@chanse.com");
   (K_password, "password"); (K_passwordConfirmation, "password")].

(** A candidate whose password and confirmation are both the empty string. *)
Definition emptyPassword : reqbody :=
  [(K_username, "chansec"); (K_email, "chanse@chanse.com");
   (K_password, ""); (K_passwordConfirmation, "")].

(** An update that carries only a digest. *)
Definition plainDigest : reqbody := [(K_passwordHash, "plain")].

(* ------------------------------------------------------------------ *)
(** ** config/db.js *)

(** The connection strings by environment name; [mongolab] is
    [process.env.MONGOLAB_URI], which may be unset. *)
Definition dbURIs (mongolab : option string) : list (string * string) :=
  [("test", "mongodb://localhost/auth-express-test");
   ("development", "mongodb://localhost/auth-express-app");
   ("production", if truthy mongolab
                  then match mongolab with Some uri => uri | None => "" end
                  else "mongodb://localhost/auth-express-app")].

(** [o[k]] on the object's own members, [undefined] when there is none. *)
Fixpoint member (k : string) (o : list (string * string)) : option string :=
  match o with
  | [] => None
  | (k', v) :: o' => if (k' =? k)%string then Some v else member k o'
  end.

(** The exported function: [dbURIs[env]]. *)
Definition databaseUri (mongolab : option string) (env : string) : option string :=
  member env (dbURIs mongolab).

(* ------------------------------------------------------------------ *)
(** ** More vocabulary *)

(** The unique indexes hold: no two documents share an identifier, a handle
    or an address. *)
Definition unique (db : collection) : Prop :=
  NoDup (map _id db) /\ NoDup (map username db) /\ NoDup (map email db).

(** Some document of the collection has this handle or this address. *)
Definition taken (uname mail : option string) (db : collection) : Prop :=
  exists u, In u db /\ (uname = Some (username u) \/ mail = Some (email u)).

(** None of the schema paths that an update sets is set to the empty
    string. *)
Definition noEmptyPath (body : reqbody) : Prop :=
  field K_username body <> Some "" /\ field K_email body <> Some ""
  /\ field K_passwordHash body <> Some "".

(** A request without a header, and one that carries [token] as a bearer. *)
Definition anonymous (m : method) (r : route) (body : reqbody) : request :=
  {| req_method := m; req_route := r; authorization := None; req_body := body |}.

Definition bearing (token : string) (m : method) (r : route) (body : reqbody) : request :=
  {| req_method := m; req_route := r; authorization := Some ("Bearer " ++ token);
     req_body := body |}.

(** The methods that a handler which writes is bound to. *)
Definition writes (m : method) : bool :=
  match m with
  | POST | PUT | PATCH | DELETE => true
  | _ => false
  end.

(** A second Identity, and a collection of two. *)
Definition alex : user :=
  {| _id := "57e0a1b2c3d4e5f607182930"; username := "alex"; email := "alex@chanse.com";
     passwordHash := Toy.hash "hunter2" "salt"; __v := 0 |}.

Definition two : collection := [alex; chansec].

(* ------------------------------------------------------------------ *)
(** * Properties *)

(** ** The reference implementations satisfy the laws *)

Module ToyLaws.
Import Toy.

Lemma isOne_bit (b : bool) : isOne (bit b) = b.
Proof. destruct b; reflexivity. Qed.

Lemma dec_enc (s : string) : dec (enc s) = s.
Proof.
  induction s as [|[b0 b1 b2 b3 b4 b5 b6 b7] s IH]; [reflexivity|].
  cbn [enc dec]. rewrite !isOne_bit, IH. reflexivity.
Qed.

Lemma decPos_encPos (p : positive) : decPos (encPos p) = p.
Proof. induction p; cbn; congruence. Qed.

Lemma decZ_encZ (z : Z) : decZ (encZ z) = z.
Proof. destruct z; cbn; rewrite ?decPos_encPos; reflexivity. Qed.

Lemma eqb_bit (c : ascii) (b : bool) : outside c -> Ascii.eqb (bit b) c = false.
Proof.
  intros [H0 H1]. apply Ascii.eqb_neq. destruct b; cbn; congruence.
Qed.

Lemma hasChar_app (c : ascii) (s t : string) :
  hasChar c (s ++ t) = hasChar c s || hasChar c t.
Proof.
  induction s as [|a s IH]; cbn; [reflexivity|].
  rewrite IH. apply orb_assoc.
Qed.

Lemma hasChar_enc (c : ascii) (s : string) : outside c -> hasChar c (enc s) = false.
Proof.
  intros Hc. induction s as [|[b0 b1 b2 b3 b4 b5 b6 b7] s IH]; [reflexivity|].
  cbn [enc hasChar]. rewrite !eqb_bit by exact Hc. rewrite IH. reflexivity.
Qed.

Lemma hasChar_encPos (c : ascii) (p : positive) : outside c -> hasChar c (encPos p) = false.
Proof.
  intros [H0 H1]. induction p; cbn [encPos hasChar]; rewrite ?IHp; [| |reflexivity].
  - replace (Ascii.eqb "1" c) with false; [reflexivity|].
    symmetry. apply Ascii.eqb_neq. congruence.
  - replace (Ascii.eqb "0" c) with false; [reflexivity|].
    symmetry. apply Ascii.eqb_neq. congruence.
Qed.

Lemma hasChar_encZ (c : ascii) (z : Z) :
  outside c -> c <> "z"%char -> c <> "p"%char -> c <> "n"%char ->
  hasChar c (encZ z) = false.
Proof.
  intros Hc Hz Hp Hn.
  destruct z; cbn [encZ hasChar]; rewrite ?hasChar_encPos by exact Hc.
  - replace (Ascii.eqb "z" c) with false; [reflexivity|].
    symmetry. apply Ascii.eqb_neq. congruence.
  - replace (Ascii.eqb "p" c) with false; [reflexivity|].
    symmetry. apply Ascii.eqb_neq. congruence.
  - replace (Ascii.eqb "n" c) with false; [reflexivity|].
    symmetry. apply Ascii.eqb_neq. congruence.
Qed.

Lemma split_nodot (s : string) : hasChar "." s = false -> split s = [s].
Proof.
  induction s as [|a s IH]; cbn [split hasChar]; [reflexivity|].
  intros H. apply orb_false_iff in H. destruct H as [Ha Hs].
  rewrite Ha, (IH Hs). reflexivity.
Qed.

Lemma split_app (s t : string) :
  hasChar "." s = false -> split (s ++ String "." t) = s :: split t.
Proof.
  induction s as [|a s IH]; cbn [split hasChar append]; [reflexivity|].
  intros H. apply orb_false_iff in H. destruct H as [Ha Hs].
  rewrite Ha, (IH Hs). reflexivity.
Qed.

Lemma outside_dot : outside ".".
Proof. split; discriminate. Qed.

Lemma outside_space : outside " ".
Proof. split; discriminate. Qed.

Lemma split_sign (p : payload) (key : string) (ttl t : Z) :
  split (sign p key ttl t)
  = [enc (payload_id p); enc (payload_username p); encZ t; encZ (t + ttl); enc key].
Proof.
  unfold sign. cbn [append].
  rewrite !split_app, split_nodot; try reflexivity;
    first [ apply hasChar_enc, outside_dot
          | apply hasChar_encZ; [apply outside_dot | discriminate ..] ].
Qed.

Lemma verify_sign (p : payload) (key : string) (ttl t clock : Z) :
  clock < t + ttl ->
  verify (sign p key ttl t) key clock
  = inr {| claims := p; iat := t; exp := t + ttl |}.
Proof.
  intros Hlt. unfold verify. rewrite split_sign, String.eqb_refl, !decZ_encZ, !dec_enc.
  apply Z.ltb_lt in Hlt. rewrite Hlt. destruct p; reflexivity.
Qed.

Lemma verify_expired (p : payload) (key : string) (ttl t clock : Z) :
  t + ttl <= clock ->
  verify (sign p key ttl t) key clock = inl TokenExpiredError.
Proof.
  intros Hle. unfold verify. rewrite split_sign, String.eqb_refl, !decZ_encZ.
  apply Z.ltb_ge in Hle. rewrite Hle. reflexivity.
Qed.

Lemma sign_compact (p : payload) (key : string) (ttl t : Z) :
  hasChar " " (sign p key ttl t) = false.
Proof.
  unfold sign. cbn [append].
  repeat (rewrite hasChar_app; cbn [hasChar]).
  rewrite !hasChar_enc by exact outside_space.
  rewrite !hasChar_encZ; try reflexivity; first [apply outside_space | discriminate].
Qed.

Lemma sign_nonempty (p : payload) (key : string) (ttl t : Z) : sign p key ttl t <> "".
Proof.
  unfold sign. destruct (enc (payload_id p)); discriminate.
Qed.

#[export] Instance jwt : JsonWebToken := {|
  jwt_sign := sign;
  jwt_verify := verify;
  jwt_verify_sign := verify_sign;
  jwt_verify_expired := verify_expired;
  jwt_sign_compact := sign_compact;
  jwt_sign_nonempty := sign_nonempty
|}.

Lemma hash_nonempty (data salt : string) : hash data salt <> "".
Proof. discriminate. Qed.

Lemma compare_hash (data salt : string) : compare data (hash data salt) = true.
Proof. apply String.eqb_refl. Qed.

#[export] Instance bcrypt : Bcrypt := {|
  hashSync := hash;
  compareSync := compare;
  hashSync_nonempty := hash_nonempty;
  compareSync_hashSync := compare_hash
|}.
End ToyLaws.


(** ** Building a document from the input *)

Section ModelFacts.
Context {bcrypt : Bcrypt}.

Lemma key_eqb_eq (a b : key) : key_eqb a b = true <-> a = b.
Proof. destruct a, b; cbn; split; congruence. Qed.

Lemma fold_username (salt : string) (b : reqbody) (d : document) :
  doc_username (fold_left (assign salt) b d) = orElse (field K_username b) (doc_username d).
Proof.
  revert d. induction b as [|[k v] b IH]; intros d; [reflexivity|].
  cbn [fold_left field]. rewrite IH.
  destruct (field K_username b); [reflexivity|].
  destruct k; reflexivity.
Qed.

Lemma fold_email (salt : string) (b : reqbody) (d : document) :
  doc_email (fold_left (assign salt) b d) = orElse (field K_email b) (doc_email d).
Proof.
  revert d. induction b as [|[k v] b IH]; intros d; [reflexivity|].
  cbn [fold_left field]. rewrite IH.
  destruct (field K_email b); [reflexivity|].
  destruct k; reflexivity.
Qed.

Lemma fold_password (salt : string) (b : reqbody) (d : document) :
  _password (fold_left (assign salt) b d) = orElse (field K_password b) (_password d).
Proof.
  revert d. induction b as [|[k v] b IH]; intros d; [reflexivity|].
  cbn [fold_left field]. rewrite IH.
  destruct (field K_password b); [reflexivity|].
  destruct k; reflexivity.
Qed.

Lemma fold_passwordConfirmation (salt : string) (b : reqbody) (d : document) :
  _passwordConfirmation (fold_left (assign salt) b d)
  = orElse (field K_passwordConfirmation b) (_passwordConfirmation d).
Proof.
  revert d. induction b as [|[k v] b IH]; intros d; [reflexivity|].
  cbn [fold_left field]. rewrite IH.
  destruct (field K_passwordConfirmation b); [reflexivity|].
  destruct k; reflexivity.
Qed.

Lemma fold_isNew (salt : string) (b : reqbody) (d : document) :
  isNew (fold_left (assign salt) b d) = isNew d.
Proof.
  revert d. induction b as [|[k v] b IH]; intros d; [reflexivity|].
  cbn [fold_left]. rewrite IH. destruct k; reflexivity.
Qed.

(** Without a [passwordHash] member in the input, the digest of the
    document is the hash of the raw password, when there is one. *)
Lemma fold_passwordHash (salt : string) (b : reqbody) (d : document) :
  field K_passwordHash b = None ->
  doc_passwordHash (fold_left (assign salt) b d)
  = orElse (option_map (fun p => hashSync p salt) (field K_password b)) (doc_passwordHash d).
Proof.
  revert d. induction b as [|[k v] b IH]; intros d Hb; [reflexivity|].
  cbn [fold_left field] in *.
  destruct (field K_passwordHash b) eqn:Hh; [discriminate|].
  rewrite (IH _ eq_refl).
  destruct (field K_password b); [reflexivity|].
  destruct k; cbn in *; try reflexivity; discriminate.
Qed.

Lemma newUser_username (salt : string) (b : reqbody) :
  doc_username (newUser salt b) = field K_username b.
Proof. unfold newUser. rewrite fold_username. destruct (field K_username b); reflexivity. Qed.

Lemma newUser_email (salt : string) (b : reqbody) :
  doc_email (newUser salt b) = field K_email b.
Proof. unfold newUser. rewrite fold_email. destruct (field K_email b); reflexivity. Qed.

Lemma newUser_password (salt : string) (b : reqbody) :
  _password (newUser salt b) = field K_password b.
Proof. unfold newUser. rewrite fold_password. destruct (field K_password b); reflexivity. Qed.

Lemma newUser_passwordConfirmation (salt : string) (b : reqbody) :
  _passwordConfirmation (newUser salt b) = field K_passwordConfirmation b.
Proof.
  unfold newUser. rewrite fold_passwordConfirmation.
  destruct (field K_passwordConfirmation b); reflexivity.
Qed.

Lemma newUser_isNew (salt : string) (b : reqbody) : isNew (newUser salt b) = true.
Proof. unfold newUser. apply fold_isNew. Qed.

Lemma newUser_passwordHash (salt : string) (b : reqbody) :
  field K_passwordHash b = None ->
  doc_passwordHash (newUser salt b)
  = option_map (fun p => hashSync p salt) (field K_password b).
Proof.
  intros Hb. unfold newUser. rewrite (fold_passwordHash _ _ _ Hb).
  destruct (field K_password b); reflexivity.
Qed.

Lemma strictEq_true (a b : option string) : strictEq a b = true <-> a = b.
Proof.
  destruct a as [x|], b as [y|]; cbn; try (split; congruence).
  rewrite String.eqb_eq. split; congruence.
Qed.

Lemma truthy_Some (s : string) : truthy (Some s) = true <-> s <> "".
Proof.
  cbn. rewrite negb_true_iff. split.
  - intros H. apply String.eqb_neq. exact H.
  - intros H. apply String.eqb_neq. exact H.
Qed.

(** The outcome of [create], by cases on validation, the store and the
    unique indexes. *)
Lemma create_invalid (b : reqbody) (e : env) (db : collection) :
  validate (newUser (genSalt e) b) <> [] ->
  create b e db = ((Some (ValidationError (validate (newUser (genSalt e) b))), None), db).
Proof.
  intros Hv. unfold create.
  destruct (validate (newUser (genSalt e) b)) as [|i errors]; [contradiction|].
  reflexivity.
Qed.

Lemma create_valid (b : reqbody) (e : env) (db : collection) (uname mail hash : string) :
  validate (newUser (genSalt e) b) = [] ->
  doc_username (newUser (genSalt e) b) = Some uname ->
  doc_email (newUser (genSalt e) b) = Some mail ->
  doc_passwordHash (newUser (genSalt e) b) = Some hash ->
  create b e db =
    match fault e with
    | Some err => ((Some err, None), db)
    | None =>
        let u := {| _id := objectId e; username := uname; email := mail;
                    passwordHash := hash; __v := 0 |} in
        match duplicate None (Some uname) (Some mail) db with
        | Some path => ((Some (DuplicateKeyError path (Some u)), None), db)
        | None => ((None, Some u), (db ++ [u])%list)
        end
    end.
Proof.
  intros Hv Hu Hm Hh. unfold create. rewrite Hv, Hu, Hm, Hh. reflexivity.
Qed.

(** A valid document has its three paths. *)
Lemma validate_nil (d : document) :
  validate d = [] ->
  truthy (doc_username d) = true /\ truthy (doc_email d) = true
  /\ truthy (doc_passwordHash d) = true /\ passwordHashValidator d = [].
Proof.
  unfold validate, required. intros H.
  destruct (truthy (doc_username d)); [|discriminate].
  destruct (truthy (doc_email d)); [|discriminate].
  destruct (truthy (doc_passwordHash d)); [|discriminate].
  cbn in H. auto.
Qed.

(** [create] either leaves the collection as it was and reports an error,
    or appends the one document it hands to the callback. *)
Lemma create_cases (b : reqbody) (e : env) (db : collection) :
  (exists err, create b e db = ((Some err, None), db))
  \/ (exists u, create b e db = ((None, Some u), (db ++ [u])%list)
                /\ validate (newUser (genSalt e) b) = []
                /\ doc_passwordHash (newUser (genSalt e) b) = Some (passwordHash u)
                /\ doc_username (newUser (genSalt e) b) = Some (username u)
                /\ _id u = objectId e).
Proof.
  unfold create.
  destruct (validate (newUser (genSalt e) b)) as [|i errors] eqn:Hv.
  - destruct (doc_username (newUser (genSalt e) b)) as [uname|]; [|left; eauto].
    destruct (doc_email (newUser (genSalt e) b)) as [mail|]; [|left; eauto].
    destruct (doc_passwordHash (newUser (genSalt e) b)) as [hash|]; [|left; eauto].
    destruct (fault e) as [err|]; [left; eauto|].
    destruct (duplicate None (Some uname) (Some mail) db) as [path|]; [left; eauto|].
    right. eexists. repeat split.
  - left. eauto.
Qed.
(** The document that a route parameter finds carries the identifier that
    the parameter casts to. *)
Lemma byId_cast (id : string) (u : user) :
  byId id u = true -> castObjectId id = Some (_id u).
Proof.
  unfold byId. destruct (castObjectId id) as [oid|]; [|discriminate].
  intros H. apply String.eqb_eq in H. congruence.
Qed.

Lemma byId_false (id oid : string) (u : user) :
  castObjectId id = Some oid -> (byId id u = false <-> _id u <> oid).
Proof.
  intros Hc. unfold byId. rewrite Hc. apply String.eqb_neq.
Qed.

Lemma find_byId_cast (id : string) (db : collection) (u : user) :
  List.find (byId id) db = Some u -> In u db /\ castObjectId id = Some (_id u).
Proof.
  intros H. apply find_some in H. destruct H as [Hin Hb].
  split; [exact Hin | exact (byId_cast id u Hb)].
Qed.
End ModelFacts.


(** ** Login *)

Section Login.
Context {bcrypt : Bcrypt} {jwt : JsonWebToken}.

Lemma login_notFound (body : reqbody) (e : env) (res : response) (db : collection) :
  notFound body e db ->
  login body e res db = res |> Res.status 401 |> Res.json (message "Invalid credentials").
Proof.
  unfold notFound, login. intros Hf. rewrite Hf. reflexivity.
Qed.

Lemma login_badPassword (body : reqbody) (e : env) (res : response) (db : collection) :
  badPassword body e db ->
  login body e res db = res |> Res.status 401 |> Res.json (message "Invalid credentials").
Proof.
  unfold badPassword, login. intros [user [Hf Hv]]. rewrite Hf, Hv. reflexivity.
Qed.

(** C1.  A login for an address that no Identity has, and a login for an
    address that an Identity has but with a password that does not match its
    digest, are answered alike: both responses are the same value, a single
    send of status 401 with the body [{message: "Invalid credentials"}]. *)
Theorem login_failures_indistinguishable
        (body1 body2 : reqbody) (e1 e2 : env) (db1 db2 : collection) :
  notFound body1 e1 db1 ->
  badPassword body2 e2 db2 ->
  login body1 e1 Res.fresh db1 = login body2 e2 Res.fresh db2
  /\ sends (login body1 e1 Res.fresh db1) = invalidCredentials
  /\ sends (login body2 e2 Res.fresh db2) = invalidCredentials.
Proof.
  intros H1 H2.
  rewrite (login_notFound _ _ Res.fresh _ H1), (login_badPassword _ _ Res.fresh _ H2).
  repeat split.
Qed.

(** A registered password is accepted: the lookup finds the document and
    bcrypt compares the password with the digest made from it. *)
Lemma login_accepts (body : reqbody) (e : env) (db : collection) (u : user)
      (p salt : string) :
  findOne (field K_email body) e db = (None, Some u) ->
  field K_password body = Some p ->
  passwordHash u = hashSync p salt ->
  sends (login body e Res.fresh db) = [(200, BJson (success (issue u e)))].
Proof.
  intros Hf Hp Hh. unfold login, validatePassword. rewrite Hf, Hp, Hh.
  rewrite compareSync_hashSync. reflexivity.
Qed.

(** C6.  When the lookup reports an error, [login] surfaces exactly one
    response, the 500 of [res.send(500)], and no authorization failure: the
    chained [.json(err)] throws on the response that was just sent, so the
    refusal branch below the line is not run and nothing else is sent. *)
Theorem login_store_error_single_500
        (body : reqbody) (e : env) (db : collection) (err : error) :
  fault e = Some err ->
  sends (login body e Res.fresh db) = [(500, BReason 500)]
  /\ log (login body e Res.fresh db)
     = [Sent 500 (BReason 500); Raised "Can't set headers after they are sent."].
Proof.
  intros Hf. unfold login, findOne. rewrite Hf. split; reflexivity.
Qed.
End Login.

Lemma login_failures_indistinguishable_witness :
  @notFound ToyLaws.bcrypt [(K_email, "nobody@chanse.com"); (K_password, "password")]
            (quiet 1000) [chansec]
  /\ @badPassword ToyLaws.bcrypt [(K_email, "chanse@chanse.com"); (K_password, "guess")]
                  (quiet 1000) [chansec]
  /\ sends (@login ToyLaws.bcrypt ToyLaws.jwt
              [(K_email, "nobody@chanse.com"); (K_password, "password")]
              (quiet 1000) Res.fresh [chansec])
     = invalidCredentials.
Proof.
  assert (H1 : @notFound ToyLaws.bcrypt [(K_email, "nobody@chanse.com"); (K_password, "password")]
                         (quiet 1000) [chansec]) by reflexivity.
  assert (H2 : @badPassword ToyLaws.bcrypt [(K_email, "chanse@chanse.com"); (K_password, "guess")]
                            (quiet 1000) [chansec])
    by (exists chansec; split; reflexivity).
  split; [exact H1|]. split; [exact H2|].
  exact (proj1 (proj2 (@login_failures_indistinguishable ToyLaws.bcrypt ToyLaws.jwt _ _ _ _ _ _ H1 H2))).
Defined.

Lemma login_store_error_single_500_witness :
  fault (failing 1000) = Some (StoreError "store unavailable")
  /\ sends (@login ToyLaws.bcrypt ToyLaws.jwt
              [(K_email, "chanse@chanse.com"); (K_password, "password")]
              (failing 1000) Res.fresh [chansec])
     = [(500, BReason 500)].
Proof.
  split; [reflexivity|].
  exact (proj1 (@login_store_error_single_500 ToyLaws.bcrypt ToyLaws.jwt
                  [(K_email, "chanse@chanse.com"); (K_password, "password")]
                  (failing 1000) [chansec] _ eq_refl)).
Defined.


(** ** Registration *)

Section Registration.
Context {bcrypt : Bcrypt} {jwt : JsonWebToken}.

Lemma duplicate_unused (uname mail : string) (db : collection) :
  unused uname mail db -> duplicate None (Some uname) (Some mail) db = None.
Proof.
  intros Hu. unfold duplicate.
  assert (Hn : forall l : list user, (forall u, In u l -> In u db) ->
            existsb (fun u => strictEq (Some (username u)) (Some uname)) l = false
            /\ existsb (fun u => strictEq (Some (email u)) (Some mail)) l = false).
  { induction l as [|u l IH]; intros Hl; [split; reflexivity|].
    destruct (Hu u (Hl u (or_introl eq_refl))) as [Hx Hy].
    destruct IH as [IH1 IH2]; [intros x Hx'; apply Hl; right; exact Hx'|].
    cbn [existsb]. rewrite IH1, IH2. cbn [strictEq].
    apply String.eqb_neq in Hx. apply String.eqb_neq in Hy.
    rewrite Hx, Hy. split; reflexivity. }
  destruct (Hn (filter (fun u => negb (strictEq (Some (_id u)) None)) db)) as [H1 H2].
  - intros u Hin. apply filter_In in Hin. tauto.
  - rewrite H1, H2. reflexivity.
Qed.

(** The validator refuses a document whose raw password is falsy or differs
    from the confirmation. *)
Lemma validate_bad_password (body : reqbody) (salt : string) :
  truthy (field K_password body) = false
  \/ strictEq (field K_password body) (field K_passwordConfirmation body) = false ->
  validate (newUser salt body) <> [].
Proof.
  intros Hbad Hnil. apply validate_nil in Hnil. destruct Hnil as (_ & _ & _ & Hv).
  unfold passwordHashValidator in Hv.
  rewrite newUser_isNew, newUser_password, newUser_passwordConfirmation in Hv.
  destruct Hbad as [Hb|Hb]; rewrite Hb in Hv.
  - discriminate.
  - destruct (truthy (field K_password body)); discriminate.
Qed.

(** C4.  A candidate whose raw password is absent (undefined or empty, what
    the validator's [!this._password] tests), or differs from the
    confirmation, is refused by [register] with status 400 and a validation
    error, and the collection is returned as it was. *)
Theorem register_rejects_bad_password
        (body : reqbody) (e : env) (db : collection) :
  truthy (field K_password body) = false
  \/ strictEq (field K_password body) (field K_passwordConfirmation body) = false ->
  exists errors,
    errors <> []
    /\ sends (fst (register body e Res.fresh db))
       = [(400, BJson (json_of_error (ValidationError errors)))]
    /\ snd (register body e Res.fresh db) = db.
Proof.
  intros Hbad. pose proof (validate_bad_password body (genSalt e) Hbad) as Hv.
  exists (validate (newUser (genSalt e) body)). split; [exact Hv|].
  unfold register. rewrite (create_invalid body e db Hv). split; reflexivity.
Qed.

(** A candidate with its four members in order, valid and new, is stored and
    answered with a token for the stored document. *)
Lemma register_ok (body : reqbody) (e : env) (res : response) (db : collection)
      (uname mail p : string) :
  field K_username body = Some uname -> uname <> "" ->
  field K_email body = Some mail -> mail <> "" ->
  field K_password body = Some p -> p <> "" ->
  field K_passwordConfirmation body = Some p ->
  field K_passwordHash body = None ->
  unused uname mail db ->
  fault e = None ->
  let u := {| _id := objectId e; username := uname; email := mail;
              passwordHash := hashSync p (genSalt e); __v := 0 |} in
  register body e res db
  = (res |> Res.status 200 |> Res.json (success (issue u e)), (db ++ [u])%list).
Proof.
  intros Hu Hune Hm Hmne Hp Hpne Hc Hh Hfree Hf u.
  assert (Hdu : doc_username (newUser (genSalt e) body) = Some uname)
    by (rewrite newUser_username; exact Hu).
  assert (Hdm : doc_email (newUser (genSalt e) body) = Some mail)
    by (rewrite newUser_email; exact Hm).
  assert (Hdh : doc_passwordHash (newUser (genSalt e) body) = Some (hashSync p (genSalt e)))
    by (rewrite (newUser_passwordHash _ _ Hh), Hp; reflexivity).
  assert (Hv : validate (newUser (genSalt e) body) = []).
  { unfold validate, required, passwordHashValidator.
    rewrite Hdu, Hdm, Hdh, newUser_isNew, newUser_password, newUser_passwordConfirmation.
    rewrite Hp, Hc.
    rewrite (proj2 (truthy_Some uname) Hune), (proj2 (truthy_Some mail) Hmne).
    rewrite (proj2 (truthy_Some p) Hpne).
    rewrite (proj2 (truthy_Some _) (hashSync_nonempty p (genSalt e))).
    rewrite (proj2 (strictEq_true (Some p) (Some p)) eq_refl). reflexivity. }
  unfold register. rewrite (create_valid body e db _ _ _ Hv Hdu Hdm Hdh), Hf.
  rewrite (duplicate_unused uname mail db Hfree). reflexivity.
Qed.

(** C3, amended.  For a candidate (handle, address, raw password and
    confirmation, no digest member) whose handle, address and raw password
    are non-empty, whose confirmation equals the password and whose handle
    and address are not yet persisted, when the store reports no error:
    [register] answers 200 with a token, the new Identity is appended to the
    collection, and verifying the token under the same secret at any time
    before 86400 seconds have passed yields a payload with the [_id] and
    [username] of that Identity. *)
Theorem register_token_roundtrip
        (body : reqbody) (e : env) (db : collection) (uname mail p : string) (clock : Z) :
  field K_username body = Some uname -> uname <> "" ->
  field K_email body = Some mail -> mail <> "" ->
  field K_password body = Some p -> p <> "" ->
  field K_passwordConfirmation body = Some p ->
  field K_passwordHash body = None ->
  unused uname mail db ->
  fault e = None ->
  clock < now e + 86400 ->
  exists token u payload,
    sends (fst (register body e Res.fresh db))
    = [(200, BJson (JObj [("message", JStr "Success"); ("token", JStr token)]))]
    /\ snd (register body e Res.fresh db) = (db ++ [u])%list
    /\ username u = uname /\ email u = mail
    /\ jwt_verify token secret clock = inr payload
    /\ payload_id (claims payload) = _id u
    /\ payload_username (claims payload) = username u.
Proof.
  intros Hu Hune Hm Hmne Hp Hpne Hc Hh Hfree Hf Hclock.
  pose proof (register_ok body e Res.fresh db uname mail p Hu Hune Hm Hmne Hp Hpne Hc Hh Hfree Hf) as Hr.
  cbv zeta in Hr. rewrite Hr.
  eexists _, _, _. cbn [fst snd].
  split; [reflexivity|]. split; [reflexivity|].
  split; [reflexivity|]. split; [reflexivity|].
  split.
  - unfold issue. apply jwt_verify_sign. exact Hclock.
  - split; reflexivity.
Qed.

Lemma issued_by_register (body : reqbody) (e : env) (db : collection) (token : string) :
  issued token (fst (register body e Res.fresh db)) -> exists u, token = issue u e.
Proof.
  unfold issued, register.
  destruct (create_cases body e db) as [[err Hc]|[u [Hc _]]]; rewrite Hc; cbn.
  - intros [H|[]]. discriminate.
  - intros [H|[]]. exists u. injection H as H. symmetry. exact H.
Qed.

Lemma issued_by_login (body : reqbody) (e : env) (db : collection) (token : string) :
  issued token (login body e Res.fresh db) -> exists u, token = issue u e.
Proof.
  unfold issued, login, findOne.
  destruct (fault e) as [err|].
  - cbn. intros [H|[]]; discriminate.
  - destruct (List.find _ db) as [u|].
    + destruct (validatePassword u (field K_password body)) as [[|]|]; cbn.
      * intros [H|[]]. exists u. injection H as H. symmetry. exact H.
      * intros [H|[]]. discriminate.
      * intros [].
    + cbn. intros [H|[]]. discriminate.
Qed.

(** C5.  A token that [register] or [login] issues at time [now e] carries
    the expiry [now e + 86400]: it verifies one second after issuance and at
    every time before the expiry, and is refused as expired 86401 seconds
    after issuance and at every time from the expiry on. *)
Theorem issued_token_expires_after_24h
        (body : reqbody) (e : env) (db : collection) (token : string) :
  issued token (fst (register body e Res.fresh db))
  \/ issued token (login body e Res.fresh db) ->
  (exists payload, jwt_verify token secret (now e + 1) = inr payload
                   /\ iat payload = now e /\ exp payload = now e + 86400)
  /\ jwt_verify token secret (now e + 86401) = inl TokenExpiredError
  /\ (forall clock, clock < now e + 86400 ->
        exists payload, jwt_verify token secret clock = inr payload)
  /\ (forall clock, now e + 86400 <= clock ->
        jwt_verify token secret clock = inl TokenExpiredError).
Proof.
  intros H.
  assert (Hu : exists u, token = issue u e).
  { destruct H as [H|H]; [exact (issued_by_register body e db token H) | exact (issued_by_login body e db token H)]. }
  destruct Hu as [u ->]. unfold issue.
  change expiresIn with 86400.
  repeat split.
  - eexists. rewrite jwt_verify_sign by lia. cbn. repeat split.
  - apply jwt_verify_expired. lia.
  - intros clock Hc. eexists. apply jwt_verify_sign. exact Hc.
  - intros clock Hc. apply jwt_verify_expired. exact Hc.
Qed.
End Registration.

(** C3, as stated, fails at a candidate whose password and confirmation are
    both the empty string: they match, the handle and the address are new
    (the collection is empty), and [register] answers 400. *)
Lemma register_empty_password_rejected :
  field K_password emptyPassword = field K_passwordConfirmation emptyPassword
  /\ @register ToyLaws.bcrypt ToyLaws.jwt emptyPassword (quiet 1000) Res.fresh []
     = (Res.fresh |> Res.status 400
                  |> Res.json (json_of_error
                                 (ValidationError [("password", "A password is required")])),
        []).
Proof.
  split; reflexivity.
Qed.

Lemma register_token_roundtrip_witness :
  exists token u payload,
    sends (fst (@register ToyLaws.bcrypt ToyLaws.jwt candidate (quiet 1000) Res.fresh []))
    = [(200, BJson (JObj [("message", JStr "Success"); ("token", JStr token)]))]
    /\ snd (@register ToyLaws.bcrypt ToyLaws.jwt candidate (quiet 1000) Res.fresh []) = [u]
    /\ username u = "chansec" /\ email u = "chanse@chanse.com"
    /\ Toy.verify token secret 87399 = inr payload
    /\ payload_id (claims payload) = _id u
    /\ payload_username (claims payload) = username u.
Proof.
  apply (@register_token_roundtrip ToyLaws.bcrypt ToyLaws.jwt candidate (quiet 1000) []
           "chansec" "chanse@chanse.com" "password" 87399);
    try reflexivity; try discriminate.
  intros u [].
Defined.

Lemma register_rejects_bad_password_witness :
  strictEq (field K_password [(K_username, "chansec"); (K_email, "chanse@chanse.com");
                              (K_password, "password"); (K_passwordConfirmation, "passwrd")])
           (field K_passwordConfirmation
                  [(K_username, "chansec"); (K_email, "chanse@chanse.com");
                   (K_password, "password"); (K_passwordConfirmation, "passwrd")]) = false
  /\ exists errors,
      errors <> []
      /\ sends (fst (@register ToyLaws.bcrypt ToyLaws.jwt
                       [(K_username, "chansec"); (K_email, "chanse@chanse.com");
                        (K_password, "password"); (K_passwordConfirmation, "passwrd")]
                       (quiet 1000) Res.fresh [chansec]))
         = [(400, BJson (json_of_error (ValidationError errors)))]
      /\ snd (@register ToyLaws.bcrypt ToyLaws.jwt
                [(K_username, "chansec"); (K_email, "chanse@chanse.com");
                 (K_password, "password"); (K_passwordConfirmation, "passwrd")]
                (quiet 1000) Res.fresh [chansec]) = [chansec].
Proof.
  split; [reflexivity|].
  apply (@register_rejects_bad_password ToyLaws.bcrypt ToyLaws.jwt). right. reflexivity.
Defined.

Lemma issued_token_expires_after_24h_witness :
  issued (@issue ToyLaws.jwt chansec (quiet 1000))
         (@login ToyLaws.bcrypt ToyLaws.jwt [(K_email, "chanse@chanse.com"); (K_password, "password")]
                 (quiet 1000) Res.fresh [chansec])
  /\ Toy.verify (@issue ToyLaws.jwt chansec (quiet 1000)) secret 87401 = inl TokenExpiredError
  /\ exists payload, Toy.verify (@issue ToyLaws.jwt chansec (quiet 1000)) secret 1001 = inr payload
                     /\ iat payload = 1000 /\ exp payload = 87400.
Proof.
  assert (H : issued (@issue ToyLaws.jwt chansec (quiet 1000))
                (@login ToyLaws.bcrypt ToyLaws.jwt
                   [(K_email, "chanse@chanse.com"); (K_password, "password")]
                   (quiet 1000) Res.fresh [chansec]))
    by (left; reflexivity).
  pose proof (@issued_token_expires_after_24h ToyLaws.bcrypt ToyLaws.jwt
                [(K_email, "chanse@chanse.com"); (K_password, "password")]
                (quiet 1000) [chansec] _ (or_intror H)) as [H1 [H2 _]].
  split; [exact H|]. split; [exact H2 | exact H1].
Defined.


(** ** Deleting *)

Section Delete.
Context {bcrypt : Bcrypt} {jwt : JsonWebToken}.

Lemma removeFirst_absent (f : user -> bool) (db : collection) :
  List.find f db = None -> removeFirst f db = db.
Proof.
  induction db as [|u db IH]; cbn; [reflexivity|].
  destruct (f u); [discriminate|]. intros H. rewrite (IH H). reflexivity.
Qed.

(** C10, amended.  For an identifier that casts to an ObjectId: whenever
    the store reports no error, [usersDelete] answers 204 with an empty
    body, whether or not a document has the identifier; when none has it the
    collection is left as it was.  Whatever the store reports, no send of
    [usersDelete] has status 404. *)
Theorem usersDelete_never_not_found (id : string) (e : env) (db : collection) :
  castObjectId id <> None ->
  (fault e = None ->
   sends (fst (usersDelete id e Res.fresh db)) = [(204, BEmpty)]
   /\ (List.find (byId id) db = None -> snd (usersDelete id e Res.fresh db) = db))
  /\ (forall code b, In (code, b) (sends (fst (usersDelete id e Res.fresh db))) ->
                     code = 204 \/ code = 500).
Proof.
  intros Hcast. unfold usersDelete, findByIdAndRemove.
  destruct (castObjectId id) as [oid|]; [clear Hcast | contradiction]. split.
  - intros Hf. rewrite Hf. cbn. split; [reflexivity|]. apply removeFirst_absent.
  - intros code b. destruct (fault e); cbn; intros [H|[]]; injection H as H _; auto.
Qed.
End Delete.

(** C10, as stated, fails at an identifier that does not cast: with the
    store answering, [DELETE /users/ffff] is answered 500 with the cast
    error, not 204. *)
Lemma usersDelete_malformed_id_is_500 :
  fault (quiet 1000) = None
  /\ sends (fst (usersDelete "ffff" (quiet 1000) Res.fresh [chansec]))
     = [(500, BJson (JObj [("name", JStr "CastError"); ("kind", JStr "ObjectId");
                           ("value", JStr "ffff"); ("path", JStr "_id")]))].
Proof.
  split; reflexivity.
Qed.

Lemma usersDelete_never_not_found_witness :
  castObjectId "57e1a1b2c3d4e5f607182931" <> None
  /\ sends (fst (usersDelete "57e1a1b2c3d4e5f607182931" (quiet 1000) Res.fresh [chansec]))
     = [(204, BEmpty)]
  /\ sends (fst (usersDelete "57efa1b2c3d4e5f60718293f" (quiet 1000) Res.fresh [chansec]))
     = [(204, BEmpty)]
  /\ snd (usersDelete "57efa1b2c3d4e5f60718293f" (quiet 1000) Res.fresh [chansec]) = [chansec].
Proof.
  assert (H1 : castObjectId "57e1a1b2c3d4e5f607182931" <> None) by discriminate.
  assert (H2 : castObjectId "57efa1b2c3d4e5f60718293f" <> None) by discriminate.
  split; [exact H1|].
  split; [exact (proj1 (proj1 (usersDelete_never_not_found
                                 "57e1a1b2c3d4e5f607182931" (quiet 1000) [chansec] H1)
                          eq_refl))|].
  split; [exact (proj1 (proj1 (usersDelete_never_not_found
                                 "57efa1b2c3d4e5f60718293f" (quiet 1000) [chansec] H2)
                          eq_refl))|].
  exact (proj2 (proj1 (usersDelete_never_not_found
                         "57efa1b2c3d4e5f60718293f" (quiet 1000) [chansec] H2) eq_refl)
           eq_refl).
Defined.


(** ** The access gate *)

Section Strings.

Lemma replace_unfold (pat rep s : string) :
  replace pat rep s
  = if startsWith pat s then rep ++ drop (String.length pat) s
    else match s with
         | EmptyString => EmptyString
         | String c s' => String c (replace pat rep s')
         end.
Proof. destruct s; reflexivity. Qed.

Lemma startsWith_app (pat s : string) : startsWith pat (pat ++ s) = true.
Proof.
  induction pat as [|a pat IH]; cbn; [reflexivity|].
  rewrite Ascii.eqb_refl. exact IH.
Qed.

Lemma drop_app (pat s : string) : drop (String.length pat) (pat ++ s) = s.
Proof. induction pat as [|a pat IH]; cbn; [reflexivity | exact IH]. Qed.

(** The first occurrence is the one that goes. *)
Lemma replace_first (pat rep pre post : string) :
  (forall k, (k < String.length pre)%nat -> occursAt pat (pre ++ pat ++ post) k = false) ->
  replace pat rep (pre ++ pat ++ post) = pre ++ rep ++ post.
Proof.
  induction pre as [|c pre IH]; intros Hfirst.
  - cbn [append]. rewrite replace_unfold, startsWith_app, drop_app. reflexivity.
  - cbn [append]. rewrite replace_unfold.
    assert (H0 : startsWith pat (String c (pre ++ pat ++ post)) = false).
    { apply (Hfirst 0%nat). cbn. lia. }
    rewrite H0. f_equal. apply IH.
    intros k Hk. apply (Hfirst (S k)). cbn. lia.
Qed.

(** Without an occurrence nothing changes. *)
Lemma replace_absent (pat rep s : string) :
  (forall k, occursAt pat s k = false) -> replace pat rep s = s.
Proof.
  induction s as [|c s IH]; intros Habs; rewrite replace_unfold.
  - pose proof (Habs 0%nat) as H0. unfold occursAt in H0. cbn [drop] in H0.
    rewrite H0. reflexivity.
  - pose proof (Habs 0%nat) as H0. unfold occursAt in H0. cbn [drop] in H0.
    rewrite H0. f_equal. apply IH. intros k. exact (Habs (S k)).
Qed.

Lemma hasChar_startsWith (c : ascii) (pat s : string) :
  startsWith pat s = true -> hasChar c pat = true -> hasChar c s = true.
Proof.
  revert s. induction pat as [|a pat IH]; intros s Hs Hc; [discriminate|].
  destruct s as [|b s]; [discriminate|].
  cbn in Hs, Hc |- *. apply andb_true_iff in Hs. destruct Hs as [Hab Hs].
  apply Ascii.eqb_eq in Hab. subst b.
  apply orb_true_iff in Hc. apply orb_true_iff.
  destruct Hc as [Hc|Hc]; [left; exact Hc | right; exact (IH s Hs Hc)].
Qed.

Lemma hasChar_drop (c : ascii) (k : nat) (s : string) :
  hasChar c (drop k s) = true -> hasChar c s = true.
Proof.
  revert s. induction k as [|k IH]; intros s H; [exact H|].
  destruct s as [|a s]; [exact H|].
  cbn in H |- *. rewrite (IH s H). apply orb_true_r.
Qed.

(** A string without a space has no occurrence of ["Bearer "]. *)
Lemma no_space_no_Bearer (s : string) :
  hasChar " " s = false -> forall k, occursAt "Bearer " s k = false.
Proof.
  intros Hs k. unfold occursAt.
  destruct (startsWith "Bearer " (drop k s)) eqn:Hp; [|reflexivity].
  assert (H : hasChar " " s = true).
  { apply (hasChar_drop _ k). apply (hasChar_startsWith _ _ _ Hp). reflexivity. }
  congruence.
Qed.
End Strings.

Section Gate.
Context {bcrypt : Bcrypt} {jwt : JsonWebToken}.

(** With a header that is not empty, the gate decides by verifying the
    header with its first ["Bearer "] removed. *)
Lemma secureRoute_present (req : request) (e : env) (res : response) (h : string) :
  authorization req = Some h -> h <> "" ->
  secureRoute req e res
  = match jwt_verify (replace "Bearer " "" h) secret (now e) with
    | inr payload => Next payload res
    | inl _ => Rejected (res |> Res.status 401 |> Res.json (message "Unauthorized"))
    end.
Proof.
  intros Hh Hne. unfold secureRoute, verify. rewrite Hh.
  rewrite (proj2 (truthy_Some h) Hne). cbn [negb].
  destruct (jwt_verify (replace "Bearer " "" h) secret (now e)); reflexivity.
Qed.

(** Without a header, or with an empty one, the gate rejects. *)
Lemma secureRoute_absent (req : request) (e : env) (res : response) :
  truthy (authorization req) = false ->
  secureRoute req e res
  = Rejected (res |> Res.status 401 |> Res.json (message "Unauthorized")).
Proof.
  intros Hh. unfold secureRoute. rewrite Hh. reflexivity.
Qed.

(** What the gate does, by cases. *)
Lemma secureRoute_cases (req : request) (e : env) (res : response) :
  secureRoute req e res
  = Rejected (res |> Res.status 401 |> Res.json (message "Unauthorized"))
  \/ exists h payload,
      authorization req = Some h /\ h <> ""
      /\ jwt_verify (replace "Bearer " "" h) secret (now e) = inr payload
      /\ secureRoute req e res = Next payload res.
Proof.
  destruct (truthy (authorization req)) eqn:Ht.
  - destruct (authorization req) as [h|] eqn:Hh; [|discriminate].
    apply truthy_Some in Ht.
    rewrite (secureRoute_present req e res h Hh Ht).
    destruct (jwt_verify (replace "Bearer " "" h) secret (now e)) as [err|payload] eqn:Hv.
    + left. reflexivity.
    + right. exists h, payload. auto.
  - left. apply secureRoute_absent. exact Ht.
Qed.

(** An issued token is accepted as the whole header, and with the prefix. *)
Lemma replace_issued (u : user) (e0 : env) :
  replace "Bearer " "" (issue u e0) = issue u e0
  /\ replace "Bearer " "" ("Bearer " ++ issue u e0) = issue u e0.
Proof.
  split.
  - apply replace_absent. apply no_space_no_Bearer. apply jwt_sign_compact.
  - reflexivity.
Qed.

(** C9.  The gate verifies the header value with the first occurrence of
    ["Bearer "] removed, wherever it stands: a value [pre ++ "Bearer " ++
    post] with no earlier occurrence becomes [pre ++ post], and a value
    without an occurrence is taken as it is.  So a header that is just a
    token issued by this application, without any prefix, passes the gate
    before the token's expiry, like the same token behind the prefix. *)
Theorem secureRoute_strips_first_Bearer :
  (forall req e res h,
      authorization req = Some h -> h <> "" ->
      secureRoute req e res
      = match jwt_verify (replace "Bearer " "" h) secret (now e) with
        | inr payload => Next payload res
        | inl _ => Rejected (res |> Res.status 401 |> Res.json (message "Unauthorized"))
        end)
  /\ (forall pre post,
         (forall k, (k < String.length pre)%nat ->
                    occursAt "Bearer " (pre ++ "Bearer " ++ post) k = false) ->
         replace "Bearer " "" (pre ++ "Bearer " ++ post) = pre ++ post)
  /\ (forall h, (forall k, occursAt "Bearer " h k = false) -> replace "Bearer " "" h = h)
  /\ (forall req e res u e0,
         authorization req = Some (issue u e0)
         \/ authorization req = Some ("Bearer " ++ issue u e0) ->
         now e < now e0 + 86400 ->
         secureRoute req e res = Next (reference u (now e0)) res).
Proof.
  split; [intros req e res h; apply secureRoute_present|].
  split; [intros pre post H; exact (replace_first "Bearer " "" pre post H)|].
  split; [intros h; apply replace_absent|].
  intros req e res u e0 Hh Hclock.
  destruct (replace_issued u e0) as [Hbare Hprefixed].
  assert (Hv : jwt_verify (issue u e0) secret (now e) = inr (reference u (now e0))).
  { unfold issue. apply jwt_verify_sign. exact Hclock. }
  destruct Hh as [Hh|Hh].
  - rewrite (secureRoute_present req e res _ Hh (jwt_sign_nonempty _ _ _ _)).
    rewrite Hbare, Hv. reflexivity.
  - rewrite (secureRoute_present req e res _ Hh); [|discriminate].
    rewrite Hprefixed, Hv. reflexivity.
Qed.

Lemma router_protected (req : request) (e : env) (db : collection) :
  protected (req_route req) = true ->
  router req e db
  = match secureRoute req e Res.fresh with
    | Rejected res' =>
        {| out_res := res'; out_user := None; out_ran := []; out_db := db |}
    | Next user res' =>
        match bound (req_route req) (req_method req) with
        | Some h =>
            {| out_res := fst (run h req e res' db); out_user := Some user;
               out_ran := [h]; out_db := snd (run h req e res' db) |}
        | None =>
            {| out_res := res'; out_user := Some user; out_ran := []; out_db := db |}
        end
    end.
Proof.
  unfold router. destruct (req_route req); try discriminate; intros _;
    destruct (secureRoute req e Res.fresh); try reflexivity;
    destruct (bound _ (req_method req)); try reflexivity;
    destruct (run _ req e res db); reflexivity.
Qed.

(** C2.  On a protected route, whatever the method: without an
    Authorization header the router answers 401 [{message: "Unauthorized"}]
    and runs no resource handler; with a header whose extracted token fails
    verification it does the same; a resource handler runs only after the
    extracted token verified, with the decoded payload as [req.user]; and
    when a non-empty header verifies, [req.user] is the decoded payload and
    the handler bound to the method is the one that runs. *)
Theorem secureRoute_guards_handlers (req : request) (e : env) (db : collection) :
  protected (req_route req) = true ->
  (authorization req = None -> router req e db = turnedAway db)
  /\ (forall h err,
         authorization req = Some h ->
         jwt_verify (replace "Bearer " "" h) secret (now e) = inl err ->
         router req e db = turnedAway db)
  /\ (forall hd,
         In hd (out_ran (router req e db)) ->
         exists h payload,
           authorization req = Some h
           /\ jwt_verify (replace "Bearer " "" h) secret (now e) = inr payload
           /\ out_user (router req e db) = Some payload)
  /\ (forall h payload,
         authorization req = Some h -> h <> "" ->
         jwt_verify (replace "Bearer " "" h) secret (now e) = inr payload ->
         out_user (router req e db) = Some payload
         /\ out_ran (router req e db)
            = match bound (req_route req) (req_method req) with
              | Some hd => [hd]
              | None => []
              end).
Proof.
  intros Hp. rewrite (router_protected req e db Hp). repeat split.
  - intros Hh. rewrite secureRoute_absent; [reflexivity|]. rewrite Hh. reflexivity.
  - intros h err Hh Hv. destruct (truthy (Some h)) eqn:Ht.
    + apply truthy_Some in Ht. rewrite (secureRoute_present req e Res.fresh h Hh Ht), Hv. reflexivity.
    + rewrite secureRoute_absent; [reflexivity|]. rewrite Hh. exact Ht.
  - intros hd Hin.
    destruct (secureRoute_cases req e Res.fresh) as [Hr|(h & payload & Hh & Hne & Hv & Hr)];
      rewrite Hr in Hin |- *.
    + destruct Hin.
    + exists h, payload. repeat split; try assumption.
      destruct (bound (req_route req) (req_method req)); reflexivity.
  - rewrite (secureRoute_present req e Res.fresh h H H0), H1.
    destruct (bound (req_route req) (req_method req)); reflexivity.
  - rewrite (secureRoute_present req e Res.fresh h H H0), H1.
    destruct (bound (req_route req) (req_method req)); reflexivity.
Qed.
End Gate.


(** ** Serialization *)

Ltac sent :=
  cbn; intros;
  repeat match goal with
         | H : _ \/ _ |- _ => destruct H
         | H : False |- _ => destruct H
         | H : (_, _) = (_, _) |- _ => injection H as; subst
         end;
  try discriminate; try (split; reflexivity); try assumption.

Section Serialization.
Context {bcrypt : Bcrypt} {jwt : JsonWebToken}.

Lemma hidden_toJSON (u : user) : hidden (toJSON u).
Proof. split; reflexivity. Qed.

Lemma hidden_toJSON_opt (u : option user) : hidden (toJSON_opt u).
Proof. destruct u; split; reflexivity. Qed.

Lemma hidden_users (users : list user) : hidden (JArr (map toJSON users)).
Proof.
  induction users as [|u users [IH1 IH2]]; [split; reflexivity|].
  split; cbn in IH1, IH2 |- *; assumption.
Qed.

Lemma discreet_usersIndex (e : env) (db : collection) : discreet (usersIndex e Res.fresh db).
Proof.
  unfold discreet, usersIndex, find. destruct (fault e); intros code j.
  - sent.
  - cbn. intros [H|[]] _. injection H as _ <-. apply hidden_users.
Qed.

Lemma discreet_usersCreate (body : reqbody) (e : env) (db : collection) :
  discreet (fst (usersCreate body e Res.fresh db)).
Proof.
  unfold discreet, usersCreate. destruct (create body e db) as [[[err|] user] db']; intros code j.
  - sent.
  - cbn. intros [H|[]] _. injection H as _ <-. apply hidden_toJSON_opt.
Qed.

Lemma discreet_usersShow (id : string) (e : env) (db : collection) :
  discreet (usersShow id e Res.fresh db).
Proof.
  unfold discreet, usersShow. destruct (findById id e db) as [[err|] [user|]]; intros code j.
  - sent.
  - sent.
  - cbn. intros [H|[]] _. injection H as _ <-. apply hidden_toJSON.
  - sent.
Qed.

Lemma discreet_usersUpdate (id : string) (body : reqbody) (e : env) (db : collection) :
  discreet (fst (usersUpdate id body e Res.fresh db)).
Proof.
  unfold discreet, usersUpdate.
  destruct (findByIdAndUpdate id body e db) as [[[err|] user] db']; intros code j.
  - sent.
  - cbn. intros [H|[]] _. injection H as _ <-. apply hidden_toJSON_opt.
Qed.

Lemma discreet_usersDelete (id : string) (e : env) (db : collection) :
  discreet (fst (usersDelete id e Res.fresh db)).
Proof.
  unfold discreet, usersDelete. destruct (findByIdAndRemove id e db) as [[err|] db'];
    intros code j; sent.
Qed.

Lemma discreet_register (body : reqbody) (e : env) (db : collection) :
  discreet (fst (register body e Res.fresh db)).
Proof.
  unfold discreet, register.
  destruct (create body e db) as [[[err|] [user|]] db']; intros code j; sent.
Qed.

Lemma discreet_login (body : reqbody) (e : env) (db : collection) :
  discreet (login body e Res.fresh db).
Proof.
  unfold discreet, login.
  destruct (findOne (field K_email body) e db) as [[err|] [user|]];
    try destruct (validatePassword user (field K_password body)) as [[|]|];
    intros code j; sent.
Qed.

Lemma discreet_run (h : handler) (req : request) (e : env) (db : collection) :
  discreet (fst (run h req e Res.fresh db)).
Proof.
  unfold run. destruct h, (req_route req); cbn [fst];
    first [ apply discreet_usersIndex | apply discreet_usersCreate | apply discreet_usersShow
          | apply discreet_usersUpdate | apply discreet_usersDelete
          | intros code j [] ].
Qed.

(** C7.  The serialized form of an Identity has neither a [passwordHash]
    nor a [__v] member, and so has every JSON body that the router sends
    with a success status, on every route: the list of [usersIndex], and the
    documents of [usersCreate], [usersShow] and [usersUpdate]. *)
Theorem serialized_identity_hides_digest :
  (forall u, exposes "passwordHash" (toJSON u) = false /\ exposes "__v" (toJSON u) = false)
  /\ (forall req e db code j,
         In (code, BJson j) (sends (out_res (router req e db))) ->
         code = 200 \/ code = 201 ->
         exposes "passwordHash" j = false /\ exposes "__v" j = false)
  /\ (forall e db, sends (usersIndex (quietly e) Res.fresh db)
                   = [(200, BJson (JArr (map toJSON db)))])
  /\ (forall id e db u, List.find (byId id) db = Some u ->
                        sends (usersShow id (quietly e) Res.fresh db)
                        = [(200, BJson (toJSON u))]).
Proof.
  split; [exact hidden_toJSON|]. split; [|split].
  - intros req e db. unfold router.
    destruct (req_route req) eqn:Hroute.
    + destruct (secureRoute_cases req e Res.fresh) as [Hr|(h & payload & _ & _ & _ & Hr)];
        rewrite Hr; [intros code j; sent|].
      destruct (bound R_users (req_method req)) as [hd|]; [|intros code j []].
      pose proof (discreet_run hd req e db) as Hd.
      destruct (run hd req e Res.fresh db) as [res' db']. exact Hd.
    + destruct (secureRoute_cases req e Res.fresh) as [Hr|(h & payload & _ & _ & _ & Hr)];
        rewrite Hr; [intros code j; sent|].
      destruct (bound (R_users_id id) (req_method req)) as [hd|]; [|intros code j []].
      pose proof (discreet_run hd req e db) as Hd.
      destruct (run hd req e Res.fresh db) as [res' db']. exact Hd.
    + destruct (req_method req); try (intros code j []).
      pose proof (discreet_register (req_body req) e db) as Hd.
      destruct (register (req_body req) e Res.fresh db) as [res' db']. exact Hd.
    + destruct (req_method req); try (intros code j []).
      exact (discreet_login (req_body req) e db).
    + intros code j [].
  - intros e db. reflexivity.
  - intros id e db u Hu. unfold usersShow, findById.
    rewrite (proj2 (find_byId_cast id db u Hu)). cbn [fault quietly]. rewrite Hu. reflexivity.
Qed.
End Serialization.


(** ** Where the digest comes from *)

Section Digest.
Context {bcrypt : Bcrypt} {jwt : JsonWebToken}.

Lemma create_derived (body : reqbody) (e : env) (db : collection) :
  field K_passwordHash body = None ->
  insertsDerived body e db (snd (create body e db)).
Proof.
  intros Hh. destruct (create_cases body e db) as [[err Hc]|[u (Hc & Hv & Hd & _)]];
    rewrite Hc; cbn [snd]; [left; reflexivity|].
  right. exists u. split; [reflexivity|].
  apply validate_nil in Hv. destruct Hv as (_ & _ & _ & Hv).
  unfold passwordHashValidator in Hv.
  rewrite newUser_isNew, newUser_password, newUser_passwordConfirmation in Hv.
  rewrite (newUser_passwordHash _ _ Hh) in Hd.
  destruct (field K_password body) as [p|] eqn:Hp; [|discriminate].
  destruct (truthy (Some p)); [|discriminate].
  destruct (strictEq (Some p) (field K_passwordConfirmation body)) eqn:Hc'; [|discriminate].
  apply strictEq_true in Hc'. cbn in Hd. injection Hd as Hd.
  exists p. split; [exact Hp|]. split; [symmetry; exact Hc' | symmetry; exact Hd].
Qed.

Lemma snd_register (body : reqbody) (e : env) (res : response) (db : collection) :
  snd (register body e res db) = snd (create body e db).
Proof.
  unfold register. destruct (create body e db) as [[[err|] [user|]] db']; reflexivity.
Qed.

Lemma snd_usersCreate (body : reqbody) (e : env) (res : response) (db : collection) :
  snd (usersCreate body e res db) = snd (create body e db).
Proof.
  unfold usersCreate. destruct (create body e db) as [[[err|] user] db']; reflexivity.
Qed.

Lemma snd_usersUpdate (id : string) (body : reqbody) (e : env) (res : response)
      (db : collection) :
  snd (usersUpdate id body e res db) = snd (findByIdAndUpdate id body e db).
Proof.
  unfold usersUpdate. destruct (findByIdAndUpdate id body e db) as [[[err|] user] db'];
    reflexivity.
Qed.

Lemma replaceFirst_digests (f : user -> bool) (u u' : user) (db : collection) :
  List.find f db = Some u ->
  passwordHash u' = passwordHash u ->
  map passwordHash (replaceFirst f u' db) = map passwordHash db.
Proof.
  intros Hfind Hsame. induction db as [|x db IH]; [discriminate|].
  cbn in Hfind |- *. destruct (f x).
  - injection Hfind as ->. cbn. rewrite Hsame. reflexivity.
  - cbn. rewrite (IH Hfind). reflexivity.
Qed.

Lemma update_keeps_digests (id : string) (body : reqbody) (e : env) (db : collection) :
  field K_passwordHash body = None ->
  map passwordHash (snd (findByIdAndUpdate id body e db)) = map passwordHash db.
Proof.
  intros Hh. unfold findByIdAndUpdate.
  destruct (castObjectId id) as [oid|]; [|reflexivity].
  destruct (validateUpdate body); [|reflexivity].
  destruct (fault e); [reflexivity|].
  destruct (List.find (byId id) db) as [u|] eqn:Hfind; [|reflexivity].
  destruct (duplicate (Some oid) (field K_username body) (field K_email body) db);
    [reflexivity|].
  cbn [snd]. apply (replaceFirst_digests _ u _ _ Hfind).
  unfold applyUpdate. cbn. rewrite Hh. reflexivity.
Qed.

(** C8, amended.  For an input that is a flat record of string values under
    [username], [email], [password] and [passwordConfirmation] only (no
    [passwordHash] member, no update operator, nothing else): [register]
    and [usersCreate] leave the collection as it was or append one document
    whose digest is the hash of the raw password that the input gives
    together with an equal confirmation; [usersUpdate] leaves every stored
    digest as it was. *)
Theorem digest_derived_without_passwordHash_member
        (body : reqbody) (e : env) (db : collection) (id : string) :
  field K_passwordHash body = None ->
  insertsDerived body e db (snd (register body e Res.fresh db))
  /\ insertsDerived body e db (snd (usersCreate body e Res.fresh db))
  /\ map passwordHash (snd (usersUpdate id body e Res.fresh db)) = map passwordHash db.
Proof.
  intros Hh. rewrite snd_register, snd_usersCreate, snd_usersUpdate.
  split; [exact (create_derived body e db Hh)|].
  split; [exact (create_derived body e db Hh)|].
  exact (update_keeps_digests id body e db Hh).
Qed.
End Digest.

(** C8, as stated, fails at an update whose input is [{passwordHash:
    "plain"}]: the input has no raw password, the update is answered 200,
    and the stored digest is the input's value as given. *)
Lemma usersUpdate_stores_given_digest :
  field K_password plainDigest = None
  /\ sends (fst (usersUpdate "57e1a1b2c3d4e5f607182931" plainDigest (quiet 1000) Res.fresh [chansec]))
     = [(200, BJson (JObj [("_id", JStr "57e1a1b2c3d4e5f607182931"); ("username", JStr "chansec");
                           ("email", JStr "chanse@chanse.com")]))]
  /\ map passwordHash (snd (usersUpdate "57e1a1b2c3d4e5f607182931" plainDigest (quiet 1000) Res.fresh [chansec]))
     = ["plain"].
Proof.
  repeat split.
Qed.

Lemma digest_derived_without_passwordHash_member_witness :
  field K_passwordHash candidate = None
  /\ @insertsDerived ToyLaws.bcrypt candidate (quiet 1000) []
       (snd (@register ToyLaws.bcrypt ToyLaws.jwt candidate (quiet 1000) Res.fresh []))
  /\ map passwordHash (snd (usersUpdate "57e1a1b2c3d4e5f607182931" candidate (quiet 1000) Res.fresh [chansec]))
     = [Toy.hash "password" "salt"].
Proof.
  pose proof (@digest_derived_without_passwordHash_member ToyLaws.bcrypt ToyLaws.jwt
                candidate (quiet 1000) [] "57e1a1b2c3d4e5f607182931" eq_refl) as [H1 _].
  pose proof (@digest_derived_without_passwordHash_member ToyLaws.bcrypt ToyLaws.jwt
                candidate (quiet 1000) [chansec] "57e1a1b2c3d4e5f607182931" eq_refl) as [_ [_ H3]].
  split; [reflexivity|]. split; [exact H1 | exact H3].
Defined.


(** ** The properties at concrete requests *)

Lemma secureRoute_guards_handlers_witness :
  protected (req_route noHeader) = true
  /\ @router ToyLaws.bcrypt ToyLaws.jwt noHeader (quiet 1000) [chansec] = turnedAway [chansec]
  /\ out_ran (@router ToyLaws.bcrypt ToyLaws.jwt listing (quiet 1000) [chansec]) = [H_index]
  /\ out_user (@router ToyLaws.bcrypt ToyLaws.jwt listing (quiet 1000) [chansec])
     = Some (reference chansec 1000).
Proof.
  split; [reflexivity|].
  split; [exact (proj1 (@secureRoute_guards_handlers ToyLaws.bcrypt ToyLaws.jwt
                          noHeader (quiet 1000) [chansec] eq_refl) eq_refl)|].
  assert (Hne : "Bearer " ++ @issue ToyLaws.jwt chansec (quiet 1000) <> "") by discriminate.
  destruct (proj2 (proj2 (proj2 (@secureRoute_guards_handlers ToyLaws.bcrypt ToyLaws.jwt
                                   listing (quiet 1000) [chansec] eq_refl)))
              _ (reference chansec 1000) eq_refl Hne eq_refl) as [Huser Hran].
  split; [exact Hran | exact Huser].
Defined.

Lemma secureRoute_strips_first_Bearer_witness :
  replace "Bearer " "" "Token Bearer abc Bearer def" = "Token abc Bearer def"
  /\ @secureRoute ToyLaws.jwt bare (quiet 1000) Res.fresh
     = Next (reference chansec 1000) Res.fresh.
Proof.
  destruct (@secureRoute_strips_first_Bearer ToyLaws.jwt) as (_ & Hfirst & _ & Hpass).
  split.
  - apply (Hfirst "Token " "abc Bearer def").
    intros k Hk. do 6 (destruct k as [|k]; [reflexivity|]). cbn in Hk. lia.
  - apply (Hpass bare (quiet 1000) Res.fresh chansec (quiet 1000)).
    + left. reflexivity.
    + reflexivity.
Defined.

Lemma serialized_identity_hides_digest_witness :
  In (200, BJson (JArr [JObj [("_id", JStr "57e1a1b2c3d4e5f607182931"); ("username", JStr "chansec");
                              ("email", JStr "chanse@chanse.com")]]))
     (sends (out_res (@router ToyLaws.bcrypt ToyLaws.jwt listing (quiet 1000) [chansec])))
  /\ exposes "passwordHash"
       (JArr [JObj [("_id", JStr "57e1a1b2c3d4e5f607182931"); ("username", JStr "chansec");
                    ("email", JStr "chanse@chanse.com")]]) = false.
Proof.
  assert (Hin : In (200, BJson (JArr [JObj [("_id", JStr "57e1a1b2c3d4e5f607182931"); ("username", JStr "chansec");
                                            ("email", JStr "chanse@chanse.com")]]))
                   (sends (out_res (@router ToyLaws.bcrypt ToyLaws.jwt listing (quiet 1000) [chansec]))))
    by (left; reflexivity).
  split; [exact Hin|].
  exact (proj1 (proj1 (proj2 (@serialized_identity_hides_digest ToyLaws.bcrypt ToyLaws.jwt))
                 listing (quiet 1000) [chansec] 200 _ Hin (or_introl eq_refl))).
Defined.


(** ** Creating: the outcomes of [register] and [usersCreate] *)

Section Creation.
Context {bcrypt : Bcrypt} {jwt : JsonWebToken}.

Lemma existsb_false {A : Type} (f : A -> bool) (l : list A) :
  existsb f l = false -> forall x, In x l -> f x = false.
Proof.
  intros He x Hin. destruct (f x) eqn:Hf; [|reflexivity].
  assert (Ht : existsb f l = true) by (apply existsb_exists; exists x; auto).
  congruence.
Qed.

(** What a passed index check says about the other documents. *)
Lemma duplicate_None (self uname mail : option string) (db : collection) :
  duplicate self uname mail db = None ->
  forall x, In x db -> strictEq (Some (_id x)) self = false ->
            strictEq (Some (username x)) uname = false
            /\ strictEq (Some (email x)) mail = false.
Proof.
  unfold duplicate. intros Hd x Hin Hself.
  set (others := filter (fun u => negb (strictEq (Some (_id u)) self)) db) in Hd.
  assert (Hx : In x others) by (apply filter_In; rewrite Hself; auto).
  destruct (existsb (fun u => strictEq (Some (username u)) uname) others) eqn:H1;
    [discriminate|].
  destruct (existsb (fun u => strictEq (Some (email u)) mail) others) eqn:H2;
    [discriminate|].
  split.
  - exact (existsb_false _ _ H1 x Hx).
  - exact (existsb_false _ _ H2 x Hx).
Qed.

(** What a successful [create] tells. *)
Lemma create_inv (body : reqbody) (e : env) (db db' : collection) (u : user) (err : option error) :
  create body e db = ((err, Some u), db') ->
  err = None /\ db' = (db ++ [u])%list /\ _id u = objectId e /\ __v u = 0 /\ fault e = None
  /\ validate (newUser (genSalt e) body) = []
  /\ doc_username (newUser (genSalt e) body) = Some (username u)
  /\ doc_email (newUser (genSalt e) body) = Some (email u)
  /\ doc_passwordHash (newUser (genSalt e) body) = Some (passwordHash u)
  /\ duplicate None (Some (username u)) (Some (email u)) db = None.
Proof.
  unfold create.
  destruct (validate (newUser (genSalt e) body)) as [|i errors]; [|discriminate].
  destruct (doc_username (newUser (genSalt e) body)) as [uname|]; [|discriminate].
  destruct (doc_email (newUser (genSalt e) body)) as [mail|]; [|discriminate].
  destruct (doc_passwordHash (newUser (genSalt e) body)) as [hash|]; [|discriminate].
  destruct (fault e) as [x|]; [discriminate|].
  destruct (duplicate None (Some uname) (Some mail) db) as [path|] eqn:Hd; [discriminate|].
  intros H. injection H as <- <- <-. cbn. repeat split. exact Hd.
Qed.

(** [create] calls back with an error and an untouched collection, or with
    the document it appended. *)
Lemma create_outcomes (body : reqbody) (e : env) (db : collection) :
  (exists err, create body e db = ((Some err, None), db))
  \/ (exists u, create body e db = ((None, Some u), (db ++ [u])%list)).
Proof.
  destruct (create_cases body e db) as [H|[u [H _]]]; [left; exact H | right; eauto].
Qed.

(** A handle or an address that a document already has is refused by
    [create]: the unique index reports it (or validation fails first). *)
Lemma create_taken (body : reqbody) (e : env) (db : collection) :
  taken (field K_username body) (field K_email body) db ->
  exists err, create body e db = ((Some err, None), db).
Proof.
  intros (x & Hin & Htaken).
  destruct (create_outcomes body e db) as [H|[u H]]; [exact H|].
  exfalso. pose proof (create_inv _ _ _ _ _ _ H) as (_ & _ & _ & _ & _ & _ & Hu & Hm & _ & Hd).
  rewrite newUser_username in Hu. rewrite newUser_email in Hm.
  assert (Hself : strictEq (Some (_id x)) None = false) by reflexivity.
  destruct (duplicate_None _ _ _ _ Hd x Hin Hself) as [H1 H2].
  destruct Htaken as [Ht|Ht]; rewrite Ht in *.
  - injection Hu as Hu. rewrite <- Hu in H1. cbn in H1. rewrite String.eqb_refl in H1.
    discriminate.
  - injection Hm as Hm. rewrite <- Hm in H2. cbn in H2. rewrite String.eqb_refl in H2.
    discriminate.
Qed.


(** X3.  After a registration that was answered with a token, a second
    registration with the same input, whenever it comes, is answered 400 and
    persists nothing. *)
Theorem register_twice_refused
        (body : reqbody) (e e' : env) (db : collection) (token : string) :
  issued token (fst (register body e Res.fresh db)) ->
  exists err,
    register body e' Res.fresh (snd (register body e Res.fresh db))
    = (Res.fresh |> Res.status 400 |> Res.json (json_of_error err),
       snd (register body e Res.fresh db)).
Proof.
  intros Hi. unfold issued in Hi.
  destruct (create_outcomes body e db) as [[err Hc]|[u Hc]].
  - unfold register in Hi. rewrite Hc in Hi. cbn in Hi. destruct Hi as [Hi|[]]. discriminate.
  - pose proof (create_inv _ _ _ _ _ _ Hc) as (_ & _ & _ & _ & _ & _ & Hu & _).
    rewrite newUser_username in Hu.
    assert (Hs : snd (register body e Res.fresh db) = (db ++ [u])%list)
      by (unfold register; rewrite Hc; reflexivity).
    rewrite Hs.
    assert (Ht : taken (field K_username body) (field K_email body) (db ++ [u])%list).
    { exists u. split; [apply in_or_app; right; left; reflexivity | left; exact Hu]. }
    destruct (create_taken body e' _ Ht) as [err Hr].
    exists err. unfold register. rewrite Hr. reflexivity.
Qed.

(** X4.  A candidate without a handle or without an address, or with an empty
    one, is refused by [register] and by [usersCreate] with status 400 and a
    validation error, and nothing is persisted. *)
Theorem missing_handle_or_address_refused (body : reqbody) (e : env) (db : collection) :
  truthy (field K_username body) = false \/ truthy (field K_email body) = false ->
  exists errors,
    errors <> []
    /\ register body e Res.fresh db
       = (Res.fresh |> Res.status 400 |> Res.json (json_of_error (ValidationError errors)), db)
    /\ usersCreate body e Res.fresh db
       = (Res.fresh |> Res.status 400 |> Res.json (json_of_error (ValidationError errors)), db).
Proof.
  intros Hm.
  assert (Hv : validate (newUser (genSalt e) body) <> []).
  { intros Hnil. apply validate_nil in Hnil. destruct Hnil as (Hu & He & _).
    rewrite newUser_username in Hu. rewrite newUser_email in He.
    destruct Hm as [Hm|Hm]; congruence. }
  exists (validate (newUser (genSalt e) body)). split; [exact Hv|].
  unfold register, usersCreate. rewrite (create_invalid body e db Hv). split; reflexivity.
Qed.

(** X5.  [usersCreate] persists what [register] persists for the same input; it
    answers 201 with the serialized document where [register] answers 200
    with a token, and both answer 400 with the same error otherwise. *)
Theorem usersCreate_like_register (body : reqbody) (e : env) (db : collection) :
  snd (usersCreate body e Res.fresh db) = snd (register body e Res.fresh db)
  /\ ((exists u,
          snd (usersCreate body e Res.fresh db) = (db ++ [u])%list
          /\ sends (fst (usersCreate body e Res.fresh db)) = [(201, BJson (toJSON u))]
          /\ sends (fst (register body e Res.fresh db))
             = [(200, BJson (success (issue u e)))])
      \/ (exists err,
             snd (usersCreate body e Res.fresh db) = db
             /\ sends (fst (usersCreate body e Res.fresh db))
                = [(400, BJson (json_of_error err))]
             /\ sends (fst (register body e Res.fresh db))
                = [(400, BJson (json_of_error err))])).
Proof.
  unfold usersCreate, register.
  destruct (create_outcomes body e db) as [[err H]|[u H]]; rewrite H; cbn [snd fst].
  - split; [reflexivity|]. right. exists err. repeat split.
  - split; [reflexivity|]. left. exists u. repeat split.
Qed.
End Creation.


(** ** Registering, then logging in *)

Section Session.
Context {bcrypt : Bcrypt} {jwt : JsonWebToken}.

Lemma find_app_last (f : user -> bool) (db : collection) (u : user) :
  (forall x, In x db -> f x = false) -> f u = true ->
  List.find f (db ++ [u])%list = Some u.
Proof.
  intros Hdb Hu. induction db as [|x db IH]; cbn.
  - rewrite Hu. reflexivity.
  - rewrite (Hdb x (or_introl eq_refl)). apply IH. intros y Hy. apply Hdb. right. exact Hy.
Qed.

(** X6.  After a valid registration, a login with the registered address and
    password, at any later moment at which the store answers, is answered
    200 with a token for the Identity that the registration created. *)
Theorem login_after_register
        (body creds : reqbody) (e e' : env) (db : collection) (uname mail p : string) :
  field K_username body = Some uname -> uname <> "" ->
  field K_email body = Some mail -> mail <> "" ->
  field K_password body = Some p -> p <> "" ->
  field K_passwordConfirmation body = Some p ->
  field K_passwordHash body = None ->
  unused uname mail db ->
  fault e = None -> fault e' = None ->
  field K_email creds = Some mail ->
  field K_password creds = Some p ->
  exists u,
    snd (register body e Res.fresh db) = (db ++ [u])%list
    /\ _id u = objectId e /\ username u = uname
    /\ sends (login creds e' Res.fresh (snd (register body e Res.fresh db)))
       = [(200, BJson (success (issue u e')))].
Proof.
  intros Hu Hune Hm Hmne Hp Hpne Hc Hh Hfree Hf Hf' Hcm Hcp.
  pose proof (register_ok body e Res.fresh db uname mail p
                          Hu Hune Hm Hmne Hp Hpne Hc Hh Hfree Hf) as Hr.
  cbv zeta in Hr. rewrite Hr. cbn [snd].
  eexists. split; [reflexivity|]. split; [reflexivity|]. split; [reflexivity|].
  apply (login_accepts creds e' _ _ p (genSalt e)); [|exact Hcp|reflexivity].
  unfold findOne. rewrite Hf', Hcm. f_equal.
  apply find_app_last.
  - intros x Hx. destruct (Hfree x Hx) as [_ Hne]. cbn. apply String.eqb_neq. exact Hne.
  - cbn. apply String.eqb_refl.
Qed.
End Session.

Lemma login_after_register_witness :
  exists u,
    snd (@register ToyLaws.bcrypt ToyLaws.jwt candidate (quiet 1000) Res.fresh [alex])
    = [alex; u]
    /\ _id u = "57e2a1b2c3d4e5f607182932" /\ username u = "chansec"
    /\ sends (@login ToyLaws.bcrypt ToyLaws.jwt
                [(K_email, "chanse@chanse.com"); (K_password, "password")] (quiet 5000)
                Res.fresh
                (snd (@register ToyLaws.bcrypt ToyLaws.jwt candidate (quiet 1000)
                        Res.fresh [alex])))
       = [(200, BJson (success (@issue ToyLaws.jwt u (quiet 5000))))].
Proof.
  apply (@login_after_register ToyLaws.bcrypt ToyLaws.jwt candidate
           [(K_email, "chanse@chanse.com"); (K_password, "password")]
           (quiet 1000) (quiet 5000) [alex] "chansec" "chanse@chanse.com" "password");
    try reflexivity; try discriminate.
  intros x [<-|[]]. split; discriminate.
Defined.


Lemma register_twice_refused_witness :
  issued (@issue ToyLaws.jwt {| _id := "57e2a1b2c3d4e5f607182932"; username := "chansec";
                                email := "chanse@chanse.com";
                                passwordHash := Toy.hash "password" "salt"; __v := 0 |}
                 (quiet 1000))
         (fst (@register ToyLaws.bcrypt ToyLaws.jwt candidate (quiet 1000) Res.fresh []))
  /\ exists err,
      @register ToyLaws.bcrypt ToyLaws.jwt candidate (quiet 2000) Res.fresh
        (snd (@register ToyLaws.bcrypt ToyLaws.jwt candidate (quiet 1000) Res.fresh []))
      = (Res.fresh |> Res.status 400 |> Res.json (json_of_error err),
         snd (@register ToyLaws.bcrypt ToyLaws.jwt candidate (quiet 1000) Res.fresh [])).
Proof.
  assert (Hi : issued (@issue ToyLaws.jwt {| _id := "57e2a1b2c3d4e5f607182932"; username := "chansec";
                                             email := "chanse@chanse.com";
                                             passwordHash := Toy.hash "password" "salt";
                                             __v := 0 |} (quiet 1000))
                 (fst (@register ToyLaws.bcrypt ToyLaws.jwt candidate (quiet 1000)
                         Res.fresh [])))
    by (left; reflexivity).
  split; [exact Hi|].
  exact (@register_twice_refused ToyLaws.bcrypt ToyLaws.jwt candidate
           (quiet 1000) (quiet 2000) [] _ Hi).
Defined.

Lemma missing_handle_or_address_refused_witness :
  truthy (field K_username [(K_email, "chanse@chanse.com"); (K_password, "password");
                            (K_passwordConfirmation, "password")]) = false
  /\ exists errors,
      errors <> []
      /\ @register ToyLaws.bcrypt ToyLaws.jwt
           [(K_email, "chanse@chanse.com"); (K_password, "password");
            (K_passwordConfirmation, "password")] (quiet 1000) Res.fresh []
         = (Res.fresh |> Res.status 400
                      |> Res.json (json_of_error (ValidationError errors)), [])
      /\ @usersCreate ToyLaws.bcrypt
           [(K_email, "chanse@chanse.com"); (K_password, "password");
            (K_passwordConfirmation, "password")] (quiet 1000) Res.fresh []
         = (Res.fresh |> Res.status 400
                      |> Res.json (json_of_error (ValidationError errors)), []).
Proof.
  split; [reflexivity|].
  apply (@missing_handle_or_address_refused ToyLaws.bcrypt ToyLaws.jwt). left. reflexivity.
Defined.


(** ** Updating *)

Section Update.
Context {bcrypt : Bcrypt} {jwt : JsonWebToken}.

Lemma validateUpdate_nil (body : reqbody) : noEmptyPath body -> validateUpdate body = [].
Proof.
  intros (Hu & Hm & Hh). unfold validateUpdate, required.
  destruct (field K_username body) as [u|]; [rewrite (proj2 (truthy_Some u)) by congruence|];
    (destruct (field K_email body) as [m|]; [rewrite (proj2 (truthy_Some m)) by congruence|]);
    (destruct (field K_passwordHash body) as [h|];
     [rewrite (proj2 (truthy_Some h)) by congruence|]);
    reflexivity.
Qed.



Lemma replaceFirst_ids (id oid : string) (u' : user) (db : collection) :
  castObjectId id = Some oid -> _id u' = oid ->
  map _id (replaceFirst (byId id) u' db) = map _id db.
Proof.
  intros Hc Hid. induction db as [|x db IH]; cbn; [reflexivity|].
  destruct (byId id x) eqn:Hx; cbn.
  - apply byId_cast in Hx. congruence.
  - rewrite IH. reflexivity.
Qed.

Lemma replaceFirst_others (id : string) (u' : user) (db : collection) (x : user) :
  In x db -> byId id x = false -> In x (replaceFirst (byId id) u' db).
Proof.
  intros Hin Hne. induction db as [|y db IH]; [destruct Hin|].
  cbn. destruct (byId id y) eqn:Hy.
  - destruct Hin as [->|Hin]; [congruence | right; exact Hin].
  - destruct Hin as [->|Hin]; [left; reflexivity | right; exact (IH Hin)].
Qed.



(** X7.  An update for an identifier that casts to an ObjectId and that no
    document has is answered 200 with [null], not 404, and changes nothing. *)
Theorem usersUpdate_missing_is_200_null
        (id : string) (body : reqbody) (e : env) (db : collection) :
  castObjectId id <> None ->
  fault e = None ->
  noEmptyPath body ->
  List.find (byId id) db = None ->
  usersUpdate id body e Res.fresh db = (Res.fresh |> Res.status 200 |> Res.json JNull, db).
Proof.
  intros Hc Hf Hb Hfind. unfold usersUpdate, findByIdAndUpdate.
  destruct (castObjectId id) as [oid|]; [|contradiction].
  rewrite (validateUpdate_nil body Hb), Hf, Hfind. reflexivity.
Qed.




(** X11.  Whatever the outcome of an update, the identifiers of all documents
    stay in place (so also their number), and every document that the route
    parameter does not name stays as it is. *)
Theorem usersUpdate_is_local (id : string) (body : reqbody) (e : env) (db : collection) :
  map _id (snd (usersUpdate id body e Res.fresh db)) = map _id db
  /\ (forall x, In x db -> byId id x = false ->
                In x (snd (usersUpdate id body e Res.fresh db))).
Proof.
  rewrite snd_usersUpdate. unfold findByIdAndUpdate.
  destruct (castObjectId id) as [oid|] eqn:Hc; [|split; auto].
  destruct (validateUpdate body); [|split; auto].
  destruct (fault e); [split; auto|].
  destruct (List.find (byId id) db) as [u|] eqn:Hfind; [|split; auto].
  destruct (duplicate (Some oid) (field K_username body) (field K_email body) db);
    [split; auto|].
  cbn [snd].
  destruct (find_byId_cast id db u Hfind) as [_ Hc'].
  split.
  - apply (replaceFirst_ids id oid); [exact Hc | cbn; congruence].
  - intros x Hin Hne. apply replaceFirst_others; assumption.
Qed.
End Update.


(** ** Showing what was created, and what was deleted *)

Section Lifecycle.
Context {bcrypt : Bcrypt} {jwt : JsonWebToken}.

Lemma find_removeFirst_same (id : string) (db : collection) :
  NoDup (map _id db) -> List.find (byId id) (removeFirst (byId id) db) = None.
Proof.
  induction db as [|x db IH]; intros Hnd; [reflexivity|].
  cbn in Hnd |- *. inversion Hnd as [|? ? Hx Hdb]; subst.
  destruct (byId id x) eqn:Hb.
  - apply byId_cast in Hb.
    destruct (List.find (byId id) db) as [y|] eqn:Hfind; [|reflexivity].
    destruct (find_byId_cast id db y Hfind) as [Hin Hy].
    exfalso. apply Hx. replace (_id x) with (_id y) by congruence. apply in_map. exact Hin.
  - cbn. rewrite Hb. exact (IH Hdb).
Qed.

Lemma find_removeFirst_other (id id' : string) (db : collection) :
  castObjectId id' <> castObjectId id ->
  List.find (byId id') (removeFirst (byId id) db) = List.find (byId id') db.
Proof.
  intros Hne. induction db as [|x db IH]; [reflexivity|].
  cbn. destruct (byId id x) eqn:Hb.
  - destruct (byId id' x) eqn:Hb'; [|reflexivity].
    apply byId_cast in Hb. apply byId_cast in Hb'. congruence.
  - cbn. rewrite IH. reflexivity.
Qed.

Lemma removeFirst_length (f : user -> bool) (db : collection) (u : user) :
  List.find f db = Some u -> List.length db = S (List.length (removeFirst f db)).
Proof.
  induction db as [|x db IH]; [discriminate|].
  cbn. destruct (f x); [reflexivity|]. intros H. cbn. rewrite (IH H). reflexivity.
Qed.

(** X12.  Once an Identity is deleted, showing its identifier is answered 404,
    while every identifier that does not cast to the same ObjectId is shown
    as before; the collection has lost exactly one document.  (Identifiers
    are unique, the store answers.) *)
Theorem usersShow_after_usersDelete
        (id : string) (e e' : env) (db : collection) (u : user) :
  NoDup (map _id db) ->
  fault e = None -> fault e' = None ->
  List.find (byId id) db = Some u ->
  let db' := snd (usersDelete id e Res.fresh db) in
  sends (usersShow id e' Res.fresh db')
  = [(404, BJson (JObj [("message", JStr "Could not find a user with that id")]))]
  /\ (forall id', castObjectId id' <> castObjectId id ->
                  usersShow id' e' Res.fresh db' = usersShow id' e' Res.fresh db)
  /\ List.length db = S (List.length db').
Proof.
  intros Hnd Hf Hf' Hfind db'.
  destruct (find_byId_cast id db u Hfind) as [_ Hc].
  assert (Hdb : db' = removeFirst (byId id) db).
  { unfold db', usersDelete, findByIdAndRemove. rewrite Hc, Hf. reflexivity. }
  rewrite Hdb. split; [|split].
  - unfold usersShow, findById.
    rewrite Hc, Hf', (find_removeFirst_same id db Hnd). reflexivity.
  - intros id' Hne. unfold usersShow, findById.
    rewrite (find_removeFirst_other id id' db Hne). reflexivity.
  - exact (removeFirst_length _ _ u Hfind).
Qed.

(** X13.  The document that [usersCreate] answers with is the one that a later
    [usersShow] of the generated identifier answers with, provided the
    identifier is new to the collection. *)
Theorem usersShow_after_usersCreate
        (body : reqbody) (e e' : env) (db : collection) (j : json) :
  ~ In (objectId e) (map _id db) ->
  fault e' = None ->
  sends (fst (usersCreate body e Res.fresh db)) = [(201, BJson j)] ->
  sends (usersShow (objectId e) e' Res.fresh (snd (usersCreate body e Res.fresh db)))
  = [(200, BJson j)].
Proof.
  intros Hnew Hf' Hsent. unfold usersCreate in *.
  destruct (create_outcomes body e db) as [[err H]|[u H]]; rewrite H in *; cbn in Hsent.
  - discriminate.
  - injection Hsent as <-. cbn [snd].
    pose proof (create_inv _ _ _ _ _ _ H) as (_ & _ & Hid & _).
    unfold usersShow, findById. rewrite (objectId_cast e), Hf'.
    rewrite find_app_last; [reflexivity| |].
    + intros x Hx. unfold byId. rewrite (objectId_cast e).
      apply String.eqb_neq. intros Heq.
      apply Hnew. rewrite <- Heq. apply in_map. exact Hx.
    + unfold byId. rewrite (objectId_cast e), Hid. apply String.eqb_refl.
Qed.

(** X14.  A failing store, for an identifier that casts to an ObjectId:
    [usersIndex], [usersShow] and [usersDelete] answer 500 with the error;
    [register], [usersCreate] and [usersUpdate] answer 400, with the error
    itself unless validation has already failed; no handler changes the
    collection. *)
Theorem store_failure_statuses
        (id : string) (body : reqbody) (e : env) (db : collection) (err : error) :
  castObjectId id <> None ->
  fault e = Some err ->
  sends (usersIndex e Res.fresh db) = [(500, BJson (json_of_error err))]
  /\ sends (usersShow id e Res.fresh db) = [(500, BJson (json_of_error err))]
  /\ usersDelete id e Res.fresh db
     = (Res.fresh |> Res.status 500 |> Res.json (json_of_error err), db)
  /\ (exists err',
         (err' = err \/ exists errors, errors <> [] /\ err' = ValidationError errors)
         /\ register body e Res.fresh db
            = (Res.fresh |> Res.status 400 |> Res.json (json_of_error err'), db)
         /\ usersCreate body e Res.fresh db
            = (Res.fresh |> Res.status 400 |> Res.json (json_of_error err'), db))
  /\ (exists err',
         (err' = err \/ exists errors, errors <> [] /\ err' = ValidationError errors)
         /\ usersUpdate id body e Res.fresh db
            = (Res.fresh |> Res.status 400 |> Res.json (json_of_error err'), db)).
Proof.
  intros Hc Hf. destruct (castObjectId id) as [oid|] eqn:Hcast; [clear Hc | contradiction].
  split; [|split; [|split; [|split]]].
  - unfold usersIndex, find. rewrite Hf. reflexivity.
  - unfold usersShow, findById. rewrite Hcast, Hf. reflexivity.
  - unfold usersDelete, findByIdAndRemove. rewrite Hcast, Hf. reflexivity.
  - unfold register, usersCreate, create.
    destruct (validate (newUser (genSalt e) body)) as [|i errors] eqn:Hv.
    + destruct (validate_nil _ Hv) as (Hu & Hm & Hh & _).
      destruct (doc_username (newUser (genSalt e) body)); [|discriminate].
      destruct (doc_email (newUser (genSalt e) body)); [|discriminate].
      destruct (doc_passwordHash (newUser (genSalt e) body)); [|discriminate].
      rewrite Hf. exists err. split; [left; reflexivity | split; reflexivity].
    + exists (ValidationError (i :: errors)). split; [|split; reflexivity].
      right. exists (i :: errors). split; [discriminate | reflexivity].
  - unfold usersUpdate, findByIdAndUpdate. rewrite Hcast.
    destruct (validateUpdate body) as [|i errors].
    + rewrite Hf. exists err. split; [left; reflexivity | reflexivity].
    + exists (ValidationError (i :: errors)). split; [|reflexivity].
      right. exists (i :: errors). split; [discriminate | reflexivity].
Qed.
End Lifecycle.


(** ** The unique indexes are kept *)

Section Indexes.
Context {bcrypt : Bcrypt} {jwt : JsonWebToken}.

Lemma NoDup_snoc {A : Type} (l : list A) (a : A) :
  NoDup l -> ~ In a l -> NoDup (l ++ [a])%list.
Proof.
  intros Hl Ha. induction l as [|x l IH]; cbn.
  - constructor; [intros [] | constructor].
  - inversion Hl as [|? ? Hx Hl']; subst. constructor.
    + intros Hin. apply in_app_or in Hin. destruct Hin as [Hin|[<-|[]]].
      * exact (Hx Hin).
      * apply Ha. left. reflexivity.
    + apply IH; [exact Hl'|]. intros Hin. apply Ha. right. exact Hin.
Qed.

Lemma NoDup_map_inj {A B : Type} (g : A -> B) (l : list A) (x y : A) :
  NoDup (map g l) -> In x l -> In y l -> g x = g y -> x = y.
Proof.
  induction l as [|z l IH]; intros Hnd Hx Hy Heq; [destruct Hx|].
  cbn in Hnd. inversion Hnd as [|? ? Hz Hl]; subst.
  destruct Hx as [->|Hx], Hy as [->|Hy].
  - reflexivity.
  - exfalso. apply Hz. rewrite Heq. apply in_map. exact Hy.
  - exfalso. apply Hz. rewrite <- Heq. apply in_map. exact Hx.
  - exact (IH Hl Hx Hy Heq).
Qed.

Lemma removeFirst_incl (f : user -> bool) (db : collection) (x : user) :
  In x (removeFirst f db) -> In x db.
Proof.
  induction db as [|y db IH]; cbn; [auto|].
  destruct (f y); [auto|]. intros [->|H]; [left; reflexivity | right; exact (IH H)].
Qed.

Lemma NoDup_removeFirst {B : Type} (g : user -> B) (f : user -> bool) (db : collection) :
  NoDup (map g db) -> NoDup (map g (removeFirst f db)).
Proof.
  induction db as [|x db IH]; cbn; intros Hnd; [constructor|].
  inversion Hnd as [|? ? Hx Hdb]; subst.
  destruct (f x); [exact Hdb|]. cbn. constructor; [|exact (IH Hdb)].
  intros Hin. apply Hx. apply in_map_iff in Hin. destruct Hin as (y & Hy & Hin).
  rewrite <- Hy. apply in_map. exact (removeFirst_incl f db y Hin).
Qed.

Lemma replaceFirst_incl (f : user -> bool) (u' : user) (db : collection) (x : user) :
  In x (replaceFirst f u' db) -> x = u' \/ In x db.
Proof.
  induction db as [|y db IH]; cbn; [auto|].
  destruct (f y).
  - intros [<-|H]; [left; reflexivity | right; right; exact H].
  - intros [<-|H]; [right; left; reflexivity|].
    destruct (IH H) as [->|Hin]; [left; reflexivity | right; right; exact Hin].
Qed.

Lemma NoDup_replaceFirst {B : Type} (g : user -> B) (id oid : string) (u u' : user)
      (db : collection) :
  castObjectId id = Some oid ->
  NoDup (map _id db) -> NoDup (map g db) ->
  List.find (byId id) db = Some u ->
  (forall x, In x db -> _id x <> oid -> g x <> g u') ->
  NoDup (map g (replaceFirst (byId id) u' db)).
Proof.
  intros Hc. induction db as [|x db IH]; intros Hids Hg Hfind Hfresh; [discriminate|].
  cbn in Hids, Hg, Hfind |- *.
  inversion Hids as [|? ? Hxi Hids']; subst. inversion Hg as [|? ? Hxg Hg']; subst.
  destruct (byId id x) eqn:Hb.
  - apply byId_cast in Hb. assert (Hxo : _id x = oid) by congruence.
    cbn. constructor; [|exact Hg'].
    intros Hin. apply in_map_iff in Hin. destruct Hin as (y & Hy & Hin).
    apply (Hfresh y (or_intror Hin)); [|exact Hy].
    intros Hyid. apply Hxi. rewrite Hxo, <- Hyid. apply in_map. exact Hin.
  - pose proof (proj1 (byId_false id oid x Hc) Hb) as Hne.
    cbn. constructor.
    + intros Hin. apply in_map_iff in Hin. destruct Hin as (y & Hy & Hin).
      destruct (replaceFirst_incl _ _ _ _ Hin) as [->|Hin'].
      * apply (Hfresh x (or_introl eq_refl) Hne). symmetry. exact Hy.
      * apply Hxg. rewrite <- Hy. apply in_map. exact Hin'.
    + apply IH; try assumption. intros y Hy. apply Hfresh. right. exact Hy.
Qed.

Lemma create_keeps_unique (body : reqbody) (e : env) (db : collection) :
  unique db -> ~ In (objectId e) (map _id db) -> unique (snd (create body e db)).
Proof.
  intros (Hi & Hu & Hm) Hnew.
  destruct (create_outcomes body e db) as [[err H]|[u H]]; rewrite H; cbn [snd];
    [repeat split; assumption|].
  pose proof (create_inv _ _ _ _ _ _ H) as (_ & _ & Hid & _ & _ & _ & _ & _ & _ & Hd).
  assert (Hother : forall x, In x db -> username x <> username u /\ email x <> email u).
  { intros x Hx. destruct (duplicate_None _ _ _ _ Hd x Hx eq_refl) as [H1 H2].
    cbn in H1, H2. split; apply String.eqb_neq; assumption. }
  unfold unique. rewrite !map_app. cbn [map]. repeat split; apply NoDup_snoc; try assumption.
  - rewrite Hid. exact Hnew.
  - intros Hin. apply in_map_iff in Hin. destruct Hin as (x & Hx & Hin).
    exact (proj1 (Hother x Hin) Hx).
  - intros Hin. apply in_map_iff in Hin. destruct Hin as (x & Hx & Hin).
    exact (proj2 (Hother x Hin) Hx).
Qed.

Lemma update_keeps_unique (id : string) (body : reqbody) (e : env) (db : collection) :
  unique db -> unique (snd (findByIdAndUpdate id body e db)).
Proof.
  intros (Hi & Hu & Hm). unfold findByIdAndUpdate.
  destruct (castObjectId id) as [oid|] eqn:Hc; [|repeat split; assumption].
  destruct (validateUpdate body); [|repeat split; assumption].
  destruct (fault e); [repeat split; assumption|].
  destruct (List.find (byId id) db) as [u|] eqn:Hfind; [|repeat split; assumption].
  destruct (duplicate (Some oid) (field K_username body) (field K_email body) db) eqn:Hd;
    [repeat split; assumption|].
  cbn [snd].
  destruct (find_byId_cast id db u Hfind) as [Hin Hc'].
  assert (Hid : _id u = oid) by congruence.
  assert (Hdiff : forall x, In x db -> _id x <> oid -> x <> u)
    by (intros x _ Hx ->; exact (Hx Hid)).
  repeat split.
  - rewrite (replaceFirst_ids id oid); [exact Hi | exact Hc | exact Hid].
  - apply (NoDup_replaceFirst username id oid u); try assumption.
    intros x Hx Hne. cbn.
    assert (Hself : strictEq (Some (_id x)) (Some oid) = false)
      by (cbn; apply String.eqb_neq; exact Hne).
    destruct (duplicate_None _ _ _ _ Hd x Hx Hself) as [H1 _].
    destruct (field K_username body) as [v|].
    + cbn in H1. apply String.eqb_neq. exact H1.
    + intros Heq. exact (Hdiff x Hx Hne (NoDup_map_inj username db x u Hu Hx Hin Heq)).
  - apply (NoDup_replaceFirst email id oid u); try assumption.
    intros x Hx Hne. cbn.
    assert (Hself : strictEq (Some (_id x)) (Some oid) = false)
      by (cbn; apply String.eqb_neq; exact Hne).
    destruct (duplicate_None _ _ _ _ Hd x Hx Hself) as [_ H2].
    destruct (field K_email body) as [v|].
    + cbn in H2. apply String.eqb_neq. exact H2.
    + intros Heq. exact (Hdiff x Hx Hne (NoDup_map_inj email db x u Hm Hx Hin Heq)).
Qed.

Lemma remove_keeps_unique (id : string) (e : env) (db : collection) :
  unique db -> unique (snd (findByIdAndRemove id e db)).
Proof.
  intros (Hi & Hu & Hm). unfold findByIdAndRemove.
  destruct (castObjectId id); [|repeat split; assumption].
  destruct (fault e); cbn [snd]; repeat split; try assumption; apply NoDup_removeFirst;
    assumption.
Qed.

(** Where the collection after a request can come from: it is the one
    before, unless a POST to /register, or a POST, PUT, PATCH or DELETE that
    passed the gate, ran the store operation of its handler. *)
Lemma router_db (req : request) (e : env) (db : collection) :
  out_db (router req e db) = db
  \/ (req_method req = POST
      /\ (req_route req = R_register
          \/ (req_route req = R_users /\ out_user (router req e db) <> None))
      /\ out_db (router req e db) = snd (create (req_body req) e db))
  \/ (exists id,
         req_route req = R_users_id id
         /\ (req_method req = PUT \/ req_method req = PATCH)
         /\ out_user (router req e db) <> None
         /\ out_db (router req e db) = snd (findByIdAndUpdate id (req_body req) e db))
  \/ (exists id,
         req_route req = R_users_id id /\ req_method req = DELETE
         /\ out_user (router req e db) <> None
         /\ out_db (router req e db) = snd (findByIdAndRemove id e db)).
Proof.
  unfold router. destruct (req_route req) as [|id| | |] eqn:Hroute.
  - destruct (secureRoute req e Res.fresh) as [r|user r]; [left; reflexivity|].
    destruct (req_method req) eqn:Hm; cbn [bound]; try (left; reflexivity).
    right. left. unfold run. rewrite <- snd_usersCreate with (res := r).
    destruct (usersCreate (req_body req) e r db) as [r' db']. cbn.
    split; [reflexivity|]. split; [right; split; [reflexivity | discriminate] | reflexivity].
  - destruct (secureRoute req e Res.fresh) as [r|user r]; [left; reflexivity|].
    destruct (req_method req) eqn:Hm; cbn [bound]; unfold run; rewrite ?Hroute;
      try (left; reflexivity).
    + right. right. left. exists id.
      rewrite <- snd_usersUpdate with (res := r).
      destruct (usersUpdate id (req_body req) e r db) as [r' db']. cbn.
      repeat split; auto; discriminate.
    + right. right. left. exists id.
      rewrite <- snd_usersUpdate with (res := r).
      destruct (usersUpdate id (req_body req) e r db) as [r' db']. cbn.
      repeat split; auto; discriminate.
    + right. right. right. exists id.
      unfold usersDelete.
      destruct (findByIdAndRemove id e db) as [[err|] db']; cbn;
        repeat split; auto; discriminate.
  - destruct (req_method req) eqn:Hm; try (left; reflexivity).
    right. left. rewrite <- snd_register with (res := Res.fresh).
    destruct (register (req_body req) e Res.fresh db) as [r' db']. cbn.
    split; [reflexivity|]. split; [left; reflexivity | reflexivity].
  - destruct (req_method req); left; reflexivity.
  - left. reflexivity.
Qed.

(** X15.  No request, accepted or refused, breaks the unique indexes: if no two
    documents share an identifier, a handle or an address before a request,
    and the generated identifier is new, none do after it. *)
Theorem router_keeps_unique (req : request) (e : env) (db : collection) :
  unique db ->
  ~ In (objectId e) (map _id db) ->
  unique (out_db (router req e db)).
Proof.
  intros Hu Hnew.
  destruct (router_db req e db) as [H|[(_ & _ & H)|[(id & _ & _ & _ & H)|(id & _ & _ & _ & H)]]];
    rewrite H.
  - exact Hu.
  - exact (create_keeps_unique (req_body req) e db Hu Hnew).
  - exact (update_keeps_unique id (req_body req) e db Hu).
  - exact (remove_keeps_unique id e db Hu).
Qed.

(** X16.  The collection changes only through a POST to /register or through a
    POST, PUT, PATCH or DELETE on a protected route that passed the gate: a
    GET, a request that the gate turned away, and a login never change it. *)
Theorem router_changes_only_by_gated_writes (req : request) (e : env) (db : collection) :
  out_db (router req e db) <> db ->
  writes (req_method req) = true
  /\ ((req_route req = R_register /\ req_method req = POST)
      \/ (protected (req_route req) = true /\ out_user (router req e db) <> None)).
Proof.
  intros Hch.
  destruct (router_db req e db)
    as [H|[(Hm & Hr & _)|[(id & Hr & Hm & Hu & _)|(id & Hr & Hm & Hu & _)]]].
  - contradiction.
  - rewrite Hm. split; [reflexivity|].
    destruct Hr as [Hr|[Hr Hu]]; [left; auto | right; rewrite Hr; auto].
  - split; [destruct Hm as [Hm|Hm]; rewrite Hm; reflexivity|].
    right. rewrite Hr. auto.
  - rewrite Hm. split; [reflexivity|]. right. rewrite Hr. auto.
Qed.
End Indexes.


(** ** From a token to the protected routes *)

Section Walkthrough.
Context {bcrypt : Bcrypt} {jwt : JsonWebToken}.

(** X17.  A token that this application issued, sent as [Bearer <token>], opens
    every protected route until 86400 seconds after it was issued: [req.user]
    is the Identity reference it was issued for and the handler bound to the
    method runs.  From then on the router answers 401 and runs nothing. *)
Theorem issued_token_opens_gate_until_expiry
        (u : user) (e0 e : env) (m : method) (r : route) (body : reqbody) (db : collection) :
  protected r = true ->
  (now e < now e0 + 86400 ->
   out_user (router (bearing (issue u e0) m r body) e db) = Some (reference u (now e0))
   /\ out_ran (router (bearing (issue u e0) m r body) e db)
      = match bound r m with
        | Some h => [h]
        | None => []
        end)
  /\ (now e0 + 86400 <= now e ->
      router (bearing (issue u e0) m r body) e db = turnedAway db).
Proof.
  intros Hp.
  assert (Hgate : secureRoute (bearing (issue u e0) m r body) e Res.fresh
                  = match jwt_verify (issue u e0) secret (now e) with
                    | inr payload => Next payload Res.fresh
                    | inl _ => Rejected (Res.fresh |> Res.status 401
                                                   |> Res.json (message "Unauthorized"))
                    end).
  { rewrite (secureRoute_present (bearing (issue u e0) m r body) e Res.fresh
               ("Bearer " ++ issue u e0) eq_refl); [|discriminate].
    rewrite (proj2 (replace_issued u e0)). reflexivity. }
  rewrite (router_protected (bearing (issue u e0) m r body) e db Hp), Hgate.
  cbn [req_route req_method bearing].
  split.
  - intros Hclock. unfold issue. rewrite (jwt_verify_sign _ _ _ _ _ Hclock).
    fold (reference u (now e0)).
    destruct (bound r m); split; reflexivity.
  - intros Hclock. unfold issue. rewrite (jwt_verify_expired _ _ _ _ _ Hclock). reflexivity.
Qed.

End Walkthrough.


(** ** config/db.js *)

(** X19.  In production the connection string is [MONGOLAB_URI] whenever that is
    set and not empty, and the development string otherwise; the test string
    is never the development one. *)
Theorem databaseUri_by_environment (mongolab : option string) :
  (forall uri, mongolab = Some uri -> uri <> "" ->
               databaseUri mongolab "production" = Some uri)
  /\ (truthy mongolab = false ->
      databaseUri mongolab "production" = databaseUri mongolab "development")
  /\ (forall uri, databaseUri mongolab "test" = Some uri ->
                  databaseUri mongolab "development" = Some uri -> False).
Proof.
  split; [|split].
  - intros uri -> Hne. unfold databaseUri, dbURIs.
    rewrite (proj2 (truthy_Some uri) Hne). reflexivity.
  - intros Hf. unfold databaseUri, dbURIs. rewrite Hf. reflexivity.
  - intros uri Ht Hd. cbn in Ht, Hd. congruence.
Qed.


(** ** The further properties at concrete requests *)

Lemma unique_two : unique two.
Proof.
  repeat split;
    (constructor; [intros [H|[]]; discriminate | constructor; [intros [] | constructor]]).
Defined.

Lemma usersUpdate_missing_is_200_null_witness :
  castObjectId "57efa1b2c3d4e5f60718293f" <> None
  /\ noEmptyPath [(K_username, "chanse")]
  /\ List.find (byId "57efa1b2c3d4e5f60718293f") [chansec] = None
  /\ usersUpdate "57efa1b2c3d4e5f60718293f" [(K_username, "chanse")] (quiet 1000)
       Res.fresh [chansec]
     = (Res.fresh |> Res.status 200 |> Res.json JNull, [chansec]).
Proof.
  assert (Hc : castObjectId "57efa1b2c3d4e5f60718293f" <> None) by discriminate.
  assert (Hb : noEmptyPath [(K_username, "chanse")]) by (repeat split; discriminate).
  split; [exact Hc|]. split; [exact Hb|]. split; [reflexivity|].
  exact (usersUpdate_missing_is_200_null "57efa1b2c3d4e5f60718293f" [(K_username, "chanse")]
           (quiet 1000) [chansec] Hc eq_refl Hb eq_refl).
Defined.




Lemma usersShow_after_usersDelete_witness :
  NoDup (map _id two)
  /\ sends (usersShow "57e0a1b2c3d4e5f607182930" (quiet 2000) Res.fresh
              (snd (usersDelete "57e0a1b2c3d4e5f607182930" (quiet 1000) Res.fresh two)))
     = [(404, BJson (JObj [("message", JStr "Could not find a user with that id")]))]
  /\ usersShow "57e1a1b2c3d4e5f607182931" (quiet 2000) Res.fresh
       (snd (usersDelete "57e0a1b2c3d4e5f607182930" (quiet 1000) Res.fresh two))
     = usersShow "57e1a1b2c3d4e5f607182931" (quiet 2000) Res.fresh two.
Proof.
  pose proof (usersShow_after_usersDelete "57e0a1b2c3d4e5f607182930" (quiet 1000) (quiet 2000) two alex
                (proj1 unique_two) eq_refl eq_refl eq_refl) as H.
  cbv zeta in H. destruct H as (H404 & Hother & _).
  split; [exact (proj1 unique_two)|]. split; [exact H404|].
  apply Hother. discriminate.
Defined.

Lemma usersShow_after_usersCreate_witness :
  ~ In (objectId (quiet 1000)) (map _id [alex])
  /\ sends (usersShow "57e2a1b2c3d4e5f607182932" (quiet 2000) Res.fresh
              (snd (@usersCreate ToyLaws.bcrypt candidate (quiet 1000) Res.fresh [alex])))
     = [(200, BJson (JObj [("_id", JStr "57e2a1b2c3d4e5f607182932"); ("username", JStr "chansec");
                           ("email", JStr "chanse@chanse.com")]))].
Proof.
  assert (Hnew : ~ In (objectId (quiet 1000)) (map _id [alex]))
    by (intros [H|[]]; discriminate).
  split; [exact Hnew|].
  exact (@usersShow_after_usersCreate ToyLaws.bcrypt candidate (quiet 1000) (quiet 2000)
           [alex] _ Hnew eq_refl eq_refl).
Defined.

Lemma store_failure_statuses_witness :
  castObjectId "57e1a1b2c3d4e5f607182931" <> None
  /\ fault (failing 1000) = Some (StoreError "store unavailable")
  /\ sends (usersIndex (failing 1000) Res.fresh two)
     = [(500, BJson (json_of_error (StoreError "store unavailable")))]
  /\ usersDelete "57e1a1b2c3d4e5f607182931" (failing 1000) Res.fresh two
     = (Res.fresh |> Res.status 500
                  |> Res.json (json_of_error (StoreError "store unavailable")), two).
Proof.
  assert (Hc : castObjectId "57e1a1b2c3d4e5f607182931" <> None) by discriminate.
  pose proof (@store_failure_statuses ToyLaws.bcrypt ToyLaws.jwt
                "57e1a1b2c3d4e5f607182931" candidate (failing 1000) two _ Hc eq_refl)
    as (Hindex & _ & Hdelete & _).
  split; [exact Hc|]. split; [reflexivity|]. split; [exact Hindex | exact Hdelete].
Defined.

Lemma router_keeps_unique_witness :
  unique two
  /\ ~ In (objectId (quiet 1000)) (map _id two)
  /\ unique (out_db (@router ToyLaws.bcrypt ToyLaws.jwt
                       (anonymous POST R_register
                          [(K_username, "robin"); (K_email, "robin@chanse.com");
                           (K_password, "password"); (K_passwordConfirmation, "password")])
                       (quiet 1000) two)).
Proof.
  assert (Hnew : ~ In (objectId (quiet 1000)) (map _id two))
    by (intros [H|[H|[]]]; discriminate).
  split; [exact unique_two|]. split; [exact Hnew|].
  exact (@router_keeps_unique ToyLaws.bcrypt ToyLaws.jwt _ (quiet 1000) two unique_two Hnew).
Defined.

Lemma router_changes_only_by_gated_writes_witness :
  out_db (@router ToyLaws.bcrypt ToyLaws.jwt (anonymous POST R_register candidate)
            (quiet 1000) []) <> []
  /\ writes POST = true.
Proof.
  assert (Hch : out_db (@router ToyLaws.bcrypt ToyLaws.jwt (anonymous POST R_register candidate)
                          (quiet 1000) []) <> [])
    by (cbv; discriminate).
  split; [exact Hch|].
  exact (proj1 (@router_changes_only_by_gated_writes ToyLaws.bcrypt ToyLaws.jwt
                  (anonymous POST R_register candidate) (quiet 1000) [] Hch)).
Defined.

Lemma issued_token_opens_gate_until_expiry_witness :
  protected (R_users_id "57e1a1b2c3d4e5f607182931") = true
  /\ out_ran (@router ToyLaws.bcrypt ToyLaws.jwt
                (bearing (@issue ToyLaws.jwt chansec (quiet 1000)) DELETE
                         (R_users_id "57e1a1b2c3d4e5f607182931") [])
                (quiet 87399) [chansec]) = [H_delete]
  /\ @router ToyLaws.bcrypt ToyLaws.jwt
       (bearing (@issue ToyLaws.jwt chansec (quiet 1000)) DELETE (R_users_id "57e1a1b2c3d4e5f607182931") [])
       (quiet 87400) [chansec] = turnedAway [chansec].
Proof.
  split; [reflexivity|]. split.
  - exact (proj2 (proj1 (@issued_token_opens_gate_until_expiry ToyLaws.bcrypt ToyLaws.jwt
                           chansec (quiet 1000) (quiet 87399) DELETE (R_users_id "57e1a1b2c3d4e5f607182931") []
                           [chansec] eq_refl) eq_refl)).
  - apply (proj2 (@issued_token_opens_gate_until_expiry ToyLaws.bcrypt ToyLaws.jwt
                    chansec (quiet 1000) (quiet 87400) DELETE (R_users_id "57e1a1b2c3d4e5f607182931") []
                    [chansec] eq_refl)).
    cbn. lia.
Defined.

